(** * UPI financial analyzer: the aggregation pass of [streamlit.py]

    The script loads a ledger into a pandas DataFrame, filters it by a date
    range and a category selection, and derives the summaries every view
    reads: per-category, per-weekday and per-hour totals, the five top
    merchants, the monthly trend, and two lists of potentially wasteful
    transactions.

    This development embeds that pass (lines 9-36 and 85-86 of the script)
    as executable functions over lists of rows and proves the properties
    the specification states about it.

    Modelling conventions.
    - A DataFrame is the list of its rows in index order; a Series obtained
      from a [groupby] is the list of its (key, value) pairs in index order.
    - [Amount] is [option Q]: [None] is the NaN that
      [pd.to_numeric(errors='coerce')] produces for a cell that is not a
      number, [Some q] the decimal value of a cell.  The totals of the
      summaries are the exact sums of these values, compared up to [Qeq];
      the script computes them in binary64, with rounding.  Module
      [Float64] evaluates the category totals in binary64, as the script
      does, where the rounding matters.
    - [Date] is a calendar date (year, month, day), ordered
      lexicographically; [Category], [Receiver] and [Status] are strings.
      Rows with an empty label or date cell (NaN/NaT in pandas) are outside
      the model.
    - [groupby] has pandas' defaults: the group keys are the distinct keys
      in ascending order, and [sum] skips NaN, giving 0 for a group with no
      known amount.
    - [sort_values(ascending=False)] follows pandas' [nargsort]: reverse,
      sort ascending, reverse.  The ascending sort here is a stable
      insertion sort.  NumPy's default kind is not stable, so the order
      among equal totals, and which of them [head(5)] keeps, can differ
      from the script's; the theorems below hold for every order of
      ties. *)

From Stdlib Require Import List ZArith QArith String Ascii Bool Lia.
From Stdlib Require Import Permutation Sorted Morphisms RelationClasses.
From Stdlib Require PrimFloat.
Import ListNotations.

Set Implicit Arguments.
Open Scope Z_scope.

(** ** Group keys: types with a decidable total order *)

Class KeyOrder (K : Type) : Type := { kcmp : K -> K -> comparison }.

(** The laws every instance below satisfies (proved in the second half). *)
Class KeyOrderLaws (K : Type) `{KeyOrder K} : Prop := {
  kcmp_eq : forall a b : K, kcmp a b = Eq <-> a = b;
  kcmp_antisym : forall a b : K, kcmp b a = CompOpp (kcmp a b);
  kcmp_trans : forall a b c : K, kcmp a b = Lt -> kcmp b c = Lt -> kcmp a c = Lt
}.

Arguments KeyOrderLaws K {_}.

Definition keqb {K} `{KeyOrder K} (a b : K) : bool :=
  match kcmp a b with Eq => true | _ => false end.

Definition kleb {K} `{KeyOrder K} (a b : K) : bool :=
  match kcmp a b with Gt => false | _ => true end.

Definition klt {K} `{KeyOrder K} (a b : K) : Prop := kcmp a b = Lt.

(** Python compares [str] by code point, which is the byte order of the
    UTF-8 encoding held in a [string]. *)
#[export] Instance string_order : KeyOrder string := { kcmp := String.compare }.

#[export] Instance Z_order : KeyOrder Z := { kcmp := Z.compare }.

(** Tuples compare lexicographically. *)
#[export] Instance pair_order {A B} `{KeyOrder A} `{KeyOrder B} : KeyOrder (A * B) :=
  { kcmp x y :=
      match kcmp (fst x) (fst y) with
      | Eq => kcmp (snd x) (snd y)
      | c => c
      end }.

Module Pandas.

(** *** [Series.sum] with [skipna=True], [min_count=0] *)

Definition nan_to_zero (a : option Q) : Q :=
  match a with Some q => q | None => 0%Q end.

Definition sum_skipna (l : list (option Q)) : Q :=
  fold_right (fun a acc => (nan_to_zero a + acc)%Q) 0%Q l.

(** Sum of the values of a Series of rationals. *)
Definition series_sum {K} (s : list (K * Q)) : Q :=
  fold_right (fun kv acc => (snd kv + acc)%Q) 0%Q s.

Section GroupBy.
Context {K : Type} `{KO : KeyOrder K}.
Context {R : Type}.

(** The sorted index of the groups: each distinct key once, ascending. *)
Fixpoint insert_key (k : K) (l : list K) : list K :=
  match l with
  | [] => [k]
  | x :: t =>
      match kcmp k x with
      | Lt => k :: l
      | Eq => l
      | Gt => x :: insert_key k t
      end
  end.

Definition group_keys (l : list K) : list K := fold_right insert_key [] l.

(** The rows of one group, in frame order. *)
Definition get_group (key : R -> K) (k : K) (rows : list R) : list R :=
  filter (fun r => keqb (key r) k) rows.

(** [df.groupby(key)[col].sum()] *)
Definition groupby_sum (key : R -> K) (col : R -> option Q) (rows : list R)
  : list (K * Q) :=
  map (fun k => (k, sum_skipna (map col (get_group key k rows))))
      (group_keys (map key rows)).

(** [df.groupby(key).size()] *)
Definition groupby_size (key : R -> K) (rows : list R) : list (K * Z) :=
  map (fun k => (k, Z.of_nat (List.length (get_group key k rows))))
      (group_keys (map key rows)).

(** [Series.unique()]: distinct values in order of first appearance. *)
Fixpoint unique (l : list K) : list K :=
  match l with
  | [] => []
  | x :: t => x :: filter (fun y => negb (keqb y x)) (unique t)
  end.

(** [Series.isin(values)] on one cell. *)
Definition isin (x : K) (values : list K) : bool :=
  existsb (fun v => keqb x v) values.

(** *** [Series.sort_values(ascending=False)] *)

(** Stable ascending insertion: [x] goes before the first element that is
    not smaller. *)
Fixpoint insert_asc (x : K * Q) (l : list (K * Q)) : list (K * Q) :=
  match l with
  | [] => [x]
  | y :: t => if Qle_bool (snd x) (snd y) then x :: l else y :: insert_asc x t
  end.

Definition argsort_asc (l : list (K * Q)) : list (K * Q) :=
  fold_right insert_asc [] l.

(** [nargsort] with [ascending=False]: the values are reversed, sorted
    ascending and reversed again. *)
Definition sort_values_desc (s : list (K * Q)) : list (K * Q) :=
  rev (argsort_asc (rev s)).

(** [Series.head(n)] *)
Definition head (n : nat) (s : list (K * Q)) : list (K * Q) := firstn n s.

(** [Series.min()] and [Series.max()]; an empty column has none (NaT). *)
Fixpoint series_min (l : list K) : option K :=
  match l with
  | [] => None
  | x :: t =>
      match series_min t with
      | None => Some x
      | Some m => Some (if kleb x m then x else m)
      end
  end.

Fixpoint series_max (l : list K) : option K :=
  match l with
  | [] => None
  | x :: t =>
      match series_max t with
      | None => Some x
      | Some m => Some (if kleb m x then x else m)
      end
  end.

End GroupBy.

(** [Series.empty] and [DataFrame.empty] *)
Definition empty {A} (s : list A) : bool :=
  match s with [] => true | _ :: _ => false end.

End Pandas.

(** ** Dates and periods *)

(** A [Timestamp] at midnight, by its calendar fields. *)
Record Timestamp : Type := { year : Z; month : Z; day : Z }.

(** Timestamps compare as their (year, month, day) tuples. *)
Definition ts_key (t : Timestamp) : Z * (Z * Z) := (year t, (month t, day t)).

#[export] Instance Timestamp_order : KeyOrder Timestamp :=
  { kcmp a b := kcmp (ts_key a) (ts_key b) }.

(** A monthly [Period]: (year, month). *)
Definition Period : Type := (Z * Z)%type.

(** [Series.dt.to_period('M')] on one date. *)
Definition to_period_M (t : Timestamp) : Period := (year t, month t).

(** [PeriodIndex.to_timestamp()] on one period: the first day of the month. *)
Definition to_timestamp (p : Period) : Timestamp :=
  {| year := fst p; month := snd p; day := 1 |}.

(** Days since 1970-01-01 in the proleptic Gregorian calendar. *)
Definition days_from_civil (t : Timestamp) : Z :=
  let y := if month t <=? 2 then year t - 1 else year t in
  let era := y / 400 in
  let yoe := y - era * 400 in
  let mp := if month t >? 2 then month t - 3 else month t + 9 in
  let doy := (153 * mp + 2) / 5 + day t - 1 in
  let doe := yoe * 365 + yoe / 4 - yoe / 100 + doy in
  era * 146097 + doe - 719468.

(** [Series.dt.day_name()] on one date; 1970-01-01 was a Thursday. *)
Definition day_name (t : Timestamp) : string :=
  match (days_from_civil t + 3) mod 7 with
  | 0 => "Monday"
  | 1 => "Tuesday"
  | 2 => "Wednesday"
  | 3 => "Thursday"
  | 4 => "Friday"
  | 5 => "Saturday"
  | _ => "Sunday"
  end%string.

(** The parsed [Time] cell. *)
Record TimeOfDay : Type := { hour : Z; minute : Z; second : Z }.

(** ** The ledger *)

(** One row of [df] after lines 9-11: the six columns read from the CSV,
    dates parsed and amounts coerced. *)
Record Row : Type := {
  Date : Timestamp;
  Time : TimeOfDay;
  Amount : option Q;
  Category : string;
  Receiver : string;
  Status : string
}.

Definition DataFrame : Type := list Row.

(** The derived columns of lines 12-14. *)
Definition DayOfWeek (r : Row) : string := day_name (Date r).
Definition Hour (r : Row) : Z := hour (Time r).
Definition Month (r : Row) : Period := to_period_M (Date r).

(** [df['Amount'] < 500]: a comparison with NaN is false. *)
Definition amount_lt (a : option Q) (bound : Q) : bool :=
  match a with
  | Some q => negb (Qle_bool bound q)
  | None => false
  end.

(** ** The aggregation pass (lines 22-36 and 85-86) *)

Module Script.

Import Pandas.

(** Line 22: [(df['Date'] >= start_date) & (df['Date'] <= end_date)]. *)
Definition date_mask (start_date end_date : Timestamp) (r : Row) : bool :=
  kleb start_date (Date r) && kleb (Date r) end_date.

Definition df_filtered_by_date (start_date end_date : Timestamp) (df : DataFrame)
  : DataFrame :=
  filter (date_mask start_date end_date) df.

(** Line 24: the options offered by the category selector. *)
Definition categories (df_filtered : DataFrame) : list string :=
  unique (map Category df_filtered).

(** Line 26: [df_filtered[df_filtered['Category'].isin(selected_categories)]]. *)
Definition category_mask (selected_categories : list string) (r : Row) : bool :=
  isin (Category r) selected_categories.

Definition df_filtered_by_category (selected_categories : list string)
  (df_filtered : DataFrame) : DataFrame :=
  filter (category_mask selected_categories) df_filtered.

(** The frame every summary reads: lines 22 and 26 in sequence. *)
Definition df_filtered (df : DataFrame) (start_date end_date : Timestamp)
  (selected_categories : list string) : DataFrame :=
  df_filtered_by_category selected_categories
    (df_filtered_by_date start_date end_date df).

(** Lines 28-31. *)
Definition category_summary (df_filtered : DataFrame) : list (string * Q) :=
  sort_values_desc (groupby_sum Category Amount df_filtered).

Definition day_summary (df_filtered : DataFrame) : list (string * Q) :=
  sort_values_desc (groupby_sum DayOfWeek Amount df_filtered).

Definition hour_summary (df_filtered : DataFrame) : list (Z * Q) :=
  sort_values_desc (groupby_sum Hour Amount df_filtered).

(** The per-receiver totals before [.head(5)]. *)
Definition merchant_totals (df_filtered : DataFrame) : list (string * Q) :=
  sort_values_desc (groupby_sum Receiver Amount df_filtered).

Definition top_merchants (df_filtered : DataFrame) : list (string * Q) :=
  head 5 (merchant_totals df_filtered).

(** Lines 33-35. *)
Definition small_transactions (df_filtered : DataFrame) : DataFrame :=
  filter (fun r => amount_lt (Amount r) 500) df_filtered.

Definition recurring (small_transactions : DataFrame)
  : list ((string * Period) * Z) :=
  groupby_size (fun r => (Receiver r, Month r)) small_transactions.

Definition wasteful_small (recurring : list ((string * Period) * Z))
  : list ((string * Period) * Z) :=
  filter (fun kc => 3 <? snd kc) recurring.

(** Line 36. *)
Definition status_mask (r : Row) : bool :=
  isin (Status r) ["PENDING"; "FAILED"]%string.

Definition wasteful_status (df_filtered : DataFrame) : DataFrame :=
  filter status_mask df_filtered.

(** Line 102: the columns shown for the pending and failed rows. *)
Definition wasteful_status_table (wasteful_status : DataFrame)
  : list (Timestamp * string * option Q * string) :=
  map (fun r => (Date r, Receiver r, Amount r, Status r)) wasteful_status.

(** Line 85: the totals per month, indexed by period. *)
Definition monthly_trend_by_period (df_filtered : DataFrame)
  : list (Period * Q) :=
  groupby_sum (fun r => to_period_M (Date r)) Amount df_filtered.

(** Line 86: the index converted to timestamps. *)
Definition monthly_trend (df_filtered : DataFrame) : list (Timestamp * Q) :=
  map (fun kv => (to_timestamp (fst kv), snd kv))
      (monthly_trend_by_period df_filtered).

(** *** The summary bundle

    The specification calls the pass [aggregate] and its results a
    [SummaryBundle]; the fields are the script's variables.  The script
    has no parameters for the thresholds: 500, 3 and 5 are the literals of
    lines 33, 35 and 31. *)

Record SummaryBundle : Type := {
  categoryTotals : list (string * Q);
  dayOfWeekTotals : list (string * Q);
  hourTotals : list (Z * Q);
  topMerchants : list (string * Q);
  monthlyTrend : list (Timestamp * Q);
  wastefulRecurring : list ((string * Period) * Z);
  wastefulStatus : DataFrame
}.

Definition aggregate (df : DataFrame) (start_date end_date : Timestamp)
  (selected_categories : list string) : SummaryBundle :=
  let d := df_filtered df start_date end_date selected_categories in
  {| categoryTotals := category_summary d;
     dayOfWeekTotals := day_summary d;
     hourTotals := hour_summary d;
     topMerchants := top_merchants d;
     monthlyTrend := monthly_trend d;
     wastefulRecurring := wasteful_small (recurring (small_transactions d));
     wastefulStatus := wasteful_status d |}.

Definition empty_bundle : SummaryBundle :=
  {| categoryTotals := []; dayOfWeekTotals := []; hourTotals := [];
     topMerchants := []; monthlyTrend := []; wastefulRecurring := [];
     wastefulStatus := [] |}.

(** Lines 20-21: the dates the two date inputs show before the user
    changes them. *)
Definition default_start_date (df : DataFrame) : option Timestamp :=
  series_min (map Date df).

Definition default_end_date (df : DataFrame) : option Timestamp :=
  series_max (map Date df).

(** Line 54: the advice shown; Python takes an absent response and an
    empty text as false. *)
Record Response : Type := { text : string }.

Definition advice_text (response : option Response) : string :=
  match response with
  | Some r => if String.eqb (text r) "" then "No advice generated." else text r
  | None => "No advice generated."
  end%string.

End Script.

(** ** The Amount column in binary64

    The sums above are the exact values.  The script holds [Amount] as
    float64 and adds with rounding; this module evaluates the category
    totals as the script does, to compare sums bit for bit. *)

Module Float64.

Import Pandas.

(** The float of an integer: exact below 2^53. *)
Fixpoint of_pos (p : positive) : PrimFloat.float :=
  match p with
  | xH => PrimFloat.one
  | xO p => PrimFloat.mul PrimFloat.two (of_pos p)
  | xI p => PrimFloat.add (PrimFloat.mul PrimFloat.two (of_pos p)) PrimFloat.one
  end.

Definition of_Z (z : Z) : PrimFloat.float :=
  match z with
  | Z0 => PrimFloat.zero
  | Zpos p => of_pos p
  | Zneg p => PrimFloat.opp (of_pos p)
  end.

(** The float nearest to a decimal cell: the correctly rounded quotient of
    numerator and denominator, both exact below 2^53. *)
Definition of_Q (q : Q) : PrimFloat.float :=
  PrimFloat.div (of_Z (Qnum q)) (of_pos (Qden q)).

(** Line 11: a cell that is not a number becomes NaN. *)
Definition to_numeric (a : option Q) : PrimFloat.float :=
  match a with
  | Some q => of_Q q
  | None => PrimFloat.nan
  end.

(** [x != x] *)
Definition isna (x : PrimFloat.float) : bool := negb (PrimFloat.eqb x x).

(** One step of the compensated summation of pandas' [group_sum]: NaN is
    skipped, and a compensation that is NaN is reset to zero. *)
Definition group_sum_step (acc : PrimFloat.float * PrimFloat.float)
  (val : PrimFloat.float) : PrimFloat.float * PrimFloat.float :=
  if isna val then acc
  else
    let y := PrimFloat.sub val (snd acc) in
    let t := PrimFloat.add (fst acc) y in
    let c := PrimFloat.sub (PrimFloat.sub t (fst acc)) y in
    (t, if isna c then PrimFloat.zero else c).

Definition group_sum (l : list PrimFloat.float) : PrimFloat.float :=
  fst (fold_left group_sum_step l (PrimFloat.zero, PrimFloat.zero)).

(** [df.groupby(key)['Amount'].sum()] *)
Definition groupby_sum {K} `{KeyOrder K} (key : Row -> K) (rows : DataFrame)
  : list (K * PrimFloat.float) :=
  map (fun k => (k, group_sum
                      (map (fun r => to_numeric (Amount r))
                           (get_group key k rows))))
      (group_keys (map key rows)).

(** [Series.sort_values(ascending=False)], as [Pandas.sort_values_desc]. *)
Fixpoint insert_asc {K} (x : K * PrimFloat.float)
  (l : list (K * PrimFloat.float)) : list (K * PrimFloat.float) :=
  match l with
  | [] => [x]
  | y :: t =>
      if PrimFloat.leb (snd x) (snd y) then x :: l else y :: insert_asc x t
  end.

Definition sort_values_desc {K} (s : list (K * PrimFloat.float))
  : list (K * PrimFloat.float) :=
  rev (fold_right insert_asc [] (rev s)).

(** Line 28 on the float column. *)
Definition category_summary (df_filtered : DataFrame)
  : list (string * PrimFloat.float) :=
  sort_values_desc (groupby_sum Category df_filtered).

(** The sum of a sequence of floats, added from left to right, NaN
    skipped. *)
Definition sum (l : list PrimFloat.float) : PrimFloat.float :=
  fold_left (fun acc x => if isna x then acc else PrimFloat.add acc x)
            l PrimFloat.zero.

End Float64.

(** ** The script as a sequence of assignments to module globals

    The statements of lines 22-36 read and rebind names of the module
    namespace.  A name that is not bound, or is bound to a value of another
    kind, makes the statement fail, as Python raises. *)

Module Globals.

Import Pandas.

Inductive Value : Type :=
| VFrame (rows : DataFrame)
| VLabels (labels : list string)
| VByLabel (s : list (string * Q))
| VByHour (s : list (Z * Q))
| VCounts (s : list ((string * Period) * Z)).

Definition Namespace : Type := string -> option Value.

Definition assign (name : string) (v : Value) (g : Namespace) : Namespace :=
  fun x => if String.eqb x name then Some v else g x.

Definition frame (g : Namespace) (name : string) : option DataFrame :=
  match g name with Some (VFrame d) => Some d | _ => None end.

Definition labels (g : Namespace) (name : string) : option (list string) :=
  match g name with Some (VLabels l) => Some l | _ => None end.

Definition counts (g : Namespace) (name : string)
  : option (list ((string * Period) * Z)) :=
  match g name with Some (VCounts s) => Some s | _ => None end.

Definition by_label (g : Namespace) (name : string) : option (list (string * Q)) :=
  match g name with Some (VByLabel s) => Some s | _ => None end.

Definition by_hour (g : Namespace) (name : string) : option (list (Z * Q)) :=
  match g name with Some (VByHour s) => Some s | _ => None end.

Definition obind {A B} (m : option A) (k : A -> option B) : option B :=
  match m with Some a => k a | None => None end.

Notation "x <- m ;; k" := (obind m (fun x => k))
  (at level 61, m at next level, right associativity).

(** One assignment [target = e(source)] where [e] reads one frame. *)
Definition assign_from_frame (target source : string)
  (e : DataFrame -> Value) (g : Namespace) : option Namespace :=
  d <- frame g source ;; Some (assign target (e d) g).

Section Run.
(** The values the three widgets of lines 20, 21 and 25 return. *)
Variables start_date end_date : Timestamp.
Variable selection : list string.

Definition line_22 : Namespace -> option Namespace :=
  assign_from_frame "df_filtered" "df"
    (fun d => VFrame (Script.df_filtered_by_date start_date end_date d)).

Definition line_24 : Namespace -> option Namespace :=
  assign_from_frame "categories" "df_filtered"
    (fun d => VLabels (Script.categories d)).

Definition line_25 (g : Namespace) : option Namespace :=
  _ <- labels g "categories" ;;
  Some (assign "selected_categories" (VLabels selection) g).

Definition line_26 (g : Namespace) : option Namespace :=
  d <- frame g "df_filtered" ;;
  sel <- labels g "selected_categories" ;;
  Some (assign "df_filtered" (VFrame (Script.df_filtered_by_category sel d)) g).

Definition line_28 : Namespace -> option Namespace :=
  assign_from_frame "category_summary" "df_filtered"
    (fun d => VByLabel (Script.category_summary d)).

Definition line_29 : Namespace -> option Namespace :=
  assign_from_frame "day_summary" "df_filtered"
    (fun d => VByLabel (Script.day_summary d)).

Definition line_30 : Namespace -> option Namespace :=
  assign_from_frame "hour_summary" "df_filtered"
    (fun d => VByHour (Script.hour_summary d)).

Definition line_31 : Namespace -> option Namespace :=
  assign_from_frame "top_merchants" "df_filtered"
    (fun d => VByLabel (Script.top_merchants d)).

Definition line_33 : Namespace -> option Namespace :=
  assign_from_frame "small_transactions" "df_filtered"
    (fun d => VFrame (Script.small_transactions d)).

Definition line_34 : Namespace -> option Namespace :=
  assign_from_frame "recurring" "small_transactions"
    (fun d => VCounts (Script.recurring d)).

Definition line_35 (g : Namespace) : option Namespace :=
  s <- counts g "recurring" ;;
  Some (assign "wasteful_small" (VCounts (Script.wasteful_small s)) g).

Definition line_36 : Namespace -> option Namespace :=
  assign_from_frame "wasteful_status" "df_filtered"
    (fun d => VFrame (Script.wasteful_status d)).

(** Lines 22-36 in order. *)
Definition run (g : Namespace) : option Namespace :=
  g <- line_22 g ;; g <- line_24 g ;; g <- line_25 g ;; g <- line_26 g ;;
  g <- line_28 g ;; g <- line_29 g ;; g <- line_30 g ;; g <- line_31 g ;;
  g <- line_33 g ;; g <- line_34 g ;; g <- line_35 g ;; line_36 g.

End Run.

(** The local [monthly_trend] of [display_monthly_trend] (lines 85-86),
    read from the global [df_filtered]. *)
Definition display_monthly_trend (g : Namespace)
  : option (list (Timestamp * Q)) :=
  d <- frame g "df_filtered" ;; Some (Script.monthly_trend d).

(** The bundle held by a namespace after the pass. *)
Definition bundle (g : Namespace) : option Script.SummaryBundle :=
  c <- by_label g "category_summary" ;;
  dy <- by_label g "day_summary" ;;
  h <- by_hour g "hour_summary" ;;
  t <- by_label g "top_merchants" ;;
  m <- display_monthly_trend g ;;
  w <- counts g "wasteful_small" ;;
  ws <- frame g "wasteful_status" ;;
  Some {| Script.categoryTotals := c; Script.dayOfWeekTotals := dy;
          Script.hourTotals := h; Script.topMerchants := t;
          Script.monthlyTrend := m; Script.wastefulRecurring := w;
          Script.wastefulStatus := ws |}.

End Globals.

(** ** The views (lines 79-108 and 133-158)

    A view writes elements to the page in order; the page is the list of
    the elements written. *)

Module Views.

Import Pandas.
Open Scope string_scope.

Inductive Element : Type :=
| header (body : string)
| write (body : string)
| write_counts (s : list ((string * Period) * Z))
| success (body : string)
| info (body : string)
| table (s : list (string * Q))
| dataframe (rows : list (Timestamp * string * option Q * string)).

(** Lines 79-81. *)
Definition display_top_merchants (top_merchants : list (string * Q))
  : list Element :=
  [ header "🏪 Top 5 Merchants"; table top_merchants ].

(** Lines 92-104. *)
Definition display_wasteful_transactions
  (wasteful_small : list ((string * Period) * Z)) (wasteful_status : DataFrame)
  : list Element :=
  [ header "⚠️ Potential Wasteful Transactions" ]
  ++ (if negb (empty wasteful_small)
      then [ write "**Small repetitive transactions detected:**";
             write_counts wasteful_small ]
      else [ success "No repetitive small transactions ✅" ])
  ++ (if negb (empty wasteful_status)
      then [ write "**Pending/Failed transactions:**";
             dataframe (Script.wasteful_status_table wasteful_status) ]
      else [ success "No pending or failed transactions ✅" ]).

(** Lines 106-108. *)
Definition display_ai_advice (advice_text : string) : list Element :=
  [ header "🤖 AI-Powered Financial Advice"; info advice_text ].

(** Lines 133-141. *)
Definition menu : list string :=
  [ "Category Spending"; "Day & Hour Analysis"; "Top Merchants";
    "Monthly Trend"; "Wasteful Transactions"; "AI Advice"; "Export Report" ].

(** The function a branch of lines 145-158 calls. *)
Inductive View : Type :=
| category_spending_view
| day_hour_analysis_view
| top_merchants_view
| monthly_trend_view
| wasteful_transactions_view
| ai_advice_view
| export_pdf_view.

(** Lines 145-158: the chain of comparisons on the sidebar selection. *)
Definition dispatch (selection : string) : option View :=
  if String.eqb selection "Category Spending" then Some category_spending_view
  else if String.eqb selection "Day & Hour Analysis" then Some day_hour_analysis_view
  else if String.eqb selection "Top Merchants" then Some top_merchants_view
  else if String.eqb selection "Monthly Trend" then Some monthly_trend_view
  else if String.eqb selection "Wasteful Transactions" then Some wasteful_transactions_view
  else if String.eqb selection "AI Advice" then Some ai_advice_view
  else if String.eqb selection "Export Report" then Some export_pdf_view
  else None.

End Views.

(** ** Vocabulary of the specification *)

(** The sum of the known amounts of a list of cells, the specification's
    reading of "sum of amount over records with known amount". *)
Fixpoint known (l : list (option Q)) : list Q :=
  match l with
  | [] => []
  | Some q :: t => q :: known t
  | None :: t => known t
  end.

Definition Qsum (l : list Q) : Q := fold_right Qplus 0%Q l.

(** The total of the groups listed in [ks], used to add up a [groupby]. *)
Definition total_over {K R} `{KeyOrder K} (key : R -> K) (col : R -> option Q)
  (ks : list K) (rows : list R) : Q :=
  Pandas.series_sum
    (map (fun k => (k, Pandas.sum_skipna (map col (Pandas.get_group key k rows))))
         ks).

Definition value_le {K} (x y : K * Q) : Prop := (snd x <= snd y)%Q.
Definition value_ge {K} (x y : K * Q) : Prop := (snd y <= snd x)%Q.

(** Totals never increase along the series. *)
Definition descending {K} (s : list (K * Q)) : Prop :=
  StronglySorted value_ge s.


(** [Selects P l l']: [l'] keeps the elements of [l] that satisfy [P] and
    no others, each as often as it occurs and in the order of [l]. *)
Inductive Selects {A : Type} (P : A -> Prop) : list A -> list A -> Prop :=
| Selects_nil : Selects P [] []
| Selects_keep (a : A) (l l' : list A) :
    P a -> Selects P l l' -> Selects P (a :: l) (a :: l')
| Selects_drop (a : A) (l l' : list A) :
    ~ P a -> Selects P l l' -> Selects P (a :: l) l'.

(** [a <= b] on dates. *)
Definition date_le (a b : Timestamp) : Prop := kcmp a b <> Gt.

(** The rows the filter is to retain. *)
Definition retained (start_date end_date : Timestamp)
  (selected_categories : list string) (r : Row) : Prop :=
  date_le start_date (Date r) /\ date_le (Date r) end_date /\
  In (Category r) selected_categories.

(** The amount is known and strictly below 500. *)
Definition small_known (r : Row) : Prop :=
  exists q, Amount r = Some q /\ (q < 500)%Q.

(** A small payment to [receiver] within the month [m]. *)
Definition small_payment_to (receiver : string) (m : Period) (r : Row) : Prop :=
  small_known r /\ Receiver r = receiver /\ Month r = m.

(** The key of [r] is listed in [summary] with the sum of the known
    amounts of the rows of [d] that carry this key; if none of them has a
    known amount the total listed is 0. *)
Definition listed_with_group_total {K} (key : Row -> K) (d : DataFrame)
  (summary : list (K * Q)) (r : Row) : Prop :=
  exists v rows,
    In (key r, v) summary /\
    Selects (fun r' => key r' = key r) d rows /\
    (v == Qsum (known (map Amount rows)))%Q /\
    ((forall r', In r' rows -> Amount r' = None) -> v = 0%Q).

(** The names lines 22-36 assign. *)
Definition assigned_names : list string :=
  [ "df_filtered"; "categories"; "selected_categories"; "category_summary";
    "day_summary"; "hour_summary"; "top_merchants"; "small_transactions";
    "recurring"; "wasteful_small"; "wasteful_status" ]%string.

(** The sum of the counts of a [size] series. *)
Definition Zsum {K} (s : list (K * Z)) : Z :=
  fold_right (fun kc acc => snd kc + acc) 0 s.

(** The names [day_name] gives. *)
Definition weekday_names : list string :=
  [ "Monday"; "Tuesday"; "Wednesday"; "Thursday"; "Friday"; "Saturday";
    "Sunday" ]%string.

(** The menu entry that opens a view, and the views in menu order. *)
Definition label (v : Views.View) : string :=
  match v with
  | Views.category_spending_view => "Category Spending"
  | Views.day_hour_analysis_view => "Day & Hour Analysis"
  | Views.top_merchants_view => "Top Merchants"
  | Views.monthly_trend_view => "Monthly Trend"
  | Views.wasteful_transactions_view => "Wasteful Transactions"
  | Views.ai_advice_view => "AI Advice"
  | Views.export_pdf_view => "Export Report"
  end%string.

Definition all_views : list Views.View :=
  [ Views.category_spending_view; Views.day_hour_analysis_view;
    Views.top_merchants_view; Views.monthly_trend_view;
    Views.wasteful_transactions_view; Views.ai_advice_view;
    Views.export_pdf_view ].

(** ** Sample ledgers *)

Module Examples.

Open Scope string_scope.

Definition date (y m d : Z) : Timestamp := {| year := y; month := m; day := d |}.

Definition at_hour (h : Z) : TimeOfDay := {| hour := h; minute := 0; second := 0 |}.

Definition payment (d : Timestamp) (h : Z) (a : option Q)
  (category receiver status : string) : Row :=
  {| Date := d; Time := at_hour h; Amount := a; Category := category;
     Receiver := receiver; Status := status |}.

Definition coffee (day_of_january : Z) : Row :=
  payment (date 2024 1 day_of_january) 9 (Some 100%Q) "Food" "Coffee Shop" "COMPLETED".

(** Three payments of 100 to one merchant within January 2024. *)
Definition three_coffees : DataFrame := [coffee 3; coffee 10; coffee 17].

(** The same with a fourth payment. *)
Definition four_coffees : DataFrame := (three_coffees ++ [coffee 24])%list.

(** Two merchants with the same total. *)
Definition tied_merchants : DataFrame :=
  [ payment (date 2024 1 3) 9 (Some 100%Q) "Food" "Bakery" "COMPLETED";
    payment (date 2024 1 4) 18 (Some 100%Q) "Food" "Grocer" "COMPLETED" ].

(** Six merchants; the sixth was paid and refunded, so its total is zero. *)
Definition six_merchants : DataFrame :=
  [ payment (date 2024 1 3) 9 (Some 10%Q) "Food" "Bakery" "COMPLETED";
    payment (date 2024 1 4) 9 (Some 20%Q) "Food" "Grocer" "COMPLETED";
    payment (date 2024 1 5) 9 (Some 30%Q) "Travel" "Metro" "COMPLETED";
    payment (date 2024 1 6) 9 (Some 40%Q) "Bills" "Power" "COMPLETED";
    payment (date 2024 1 7) 9 (Some 50%Q) "Bills" "Water" "COMPLETED";
    payment (date 2024 1 8) 9 (Some 60%Q) "Shopping" "Outlet" "COMPLETED";
    payment (date 2024 1 9) 9 (Some (-60)%Q) "Shopping" "Outlet" "COMPLETED" ].

(** A failed payment whose amount cell was not a number, a pending one of
    a large amount and a completed one. *)
Definition mixed_status : DataFrame :=
  [ payment (date 2024 2 1) 8 None "Travel" "Cab" "FAILED";
    payment (date 2024 2 2) 12 (Some 900%Q) "Bills" "Landlord" "PENDING";
    payment (date 2024 2 3) 20 (Some 50%Q) "Food" "Diner" "COMPLETED" ].

(** Amounts in tenths: 0.1 for food, 0.2 and 0.3 for travel. *)
Definition tenths : DataFrame :=
  [ payment (date 2024 1 3) 9 (Some (1 # 10)) "Food" "Bakery" "COMPLETED";
    payment (date 2024 1 4) 9 (Some (2 # 10)) "Travel" "Metro" "COMPLETED";
    payment (date 2024 1 5) 9 (Some (3 # 10)) "Travel" "Cab" "COMPLETED" ].

(** Totals that shrink month after month. *)
Definition shrinking_months : DataFrame :=
  [ payment (date 2024 3 1) 8 (Some 10%Q) "Food" "Diner" "COMPLETED";
    payment (date 2023 12 9) 8 (Some 300%Q) "Food" "Diner" "COMPLETED";
    payment (date 2024 1 20) 8 (Some 200%Q) "Food" "Diner" "COMPLETED" ].

Definition all_categories : list string :=
  ["Food"; "Travel"; "Bills"; "Shopping"].

Definition first_day : Timestamp := date 2023 1 1.
Definition last_day : Timestamp := date 2024 12 31.

(** A fresh module namespace holding only the loaded ledger. *)
Definition loaded (df : DataFrame) : Globals.Namespace :=
  Globals.assign "df" (Globals.VFrame df) (fun _ => None).

End Examples.

(** * Properties *)

(** ** The key orders are lawful *)

Lemma ascii_compare_refl (a : ascii) : Ascii.compare a a = Eq.
Proof. unfold Ascii.compare. apply N.compare_refl. Qed.

Lemma ascii_compare_trans (a b c : ascii) :
  Ascii.compare a b = Lt -> Ascii.compare b c = Lt -> Ascii.compare a c = Lt.
Proof.
  unfold Ascii.compare. rewrite !N.compare_lt_iff. apply N.lt_trans.
Qed.

Lemma string_compare_refl (s : string) : String.compare s s = Eq.
Proof.
  induction s as [|a s IH]; simpl; [reflexivity|].
  now rewrite ascii_compare_refl.
Qed.

Lemma string_compare_trans (s1 s2 s3 : string) :
  String.compare s1 s2 = Lt -> String.compare s2 s3 = Lt ->
  String.compare s1 s3 = Lt.
Proof.
  revert s2 s3.
  induction s1 as [|a s1 IH]; intros [|b s2] [|c s3]; simpl;
    try discriminate; try reflexivity.
  destruct (Ascii.compare a b) eqn:Hab; try discriminate;
    destruct (Ascii.compare b c) eqn:Hbc; try discriminate; intros H12 H23.
  - apply Ascii.compare_eq_iff in Hab, Hbc. subst.
    rewrite ascii_compare_refl. eauto.
  - apply Ascii.compare_eq_iff in Hab. subst. now rewrite Hbc.
  - apply Ascii.compare_eq_iff in Hbc. subst. now rewrite Hab.
  - now rewrite (ascii_compare_trans _ _ _ Hab Hbc).
Qed.

#[export] Instance string_order_laws : KeyOrderLaws string.
Proof.
  constructor; simpl.
  - intros a b. split.
    + apply String.compare_eq_iff.
    + intros ->. apply string_compare_refl.
  - intros a b. apply String.compare_antisym.
  - apply string_compare_trans.
Qed.

#[export] Instance Z_order_laws : KeyOrderLaws Z.
Proof.
  constructor; simpl.
  - apply Z.compare_eq_iff.
  - intros a b. apply Z.compare_antisym.
  - intros a b c. rewrite !Z.compare_lt_iff. apply Z.lt_trans.
Qed.

Section KeyOrderFacts.
Context {K : Type} `{KL : KeyOrderLaws K}.

Lemma kcmp_refl (a : K) : kcmp a a = Eq.
Proof. now apply kcmp_eq. Qed.

Lemma kcmp_gt_lt (a b : K) : kcmp a b = Gt <-> kcmp b a = Lt.
Proof.
  rewrite (kcmp_antisym a b). destruct (kcmp a b); simpl; split; congruence.
Qed.

Lemma keqb_eq (a b : K) : keqb a b = true <-> a = b.
Proof.
  unfold keqb. rewrite <- kcmp_eq.
  destruct (kcmp a b); split; congruence.
Qed.

Lemma keqb_refl (a : K) : keqb a a = true.
Proof. now apply keqb_eq. Qed.

Lemma keqb_neq (a b : K) : keqb a b = false <-> a <> b.
Proof.
  rewrite <- keqb_eq. destruct (keqb a b); split; congruence.
Qed.

Lemma klt_irrefl (a : K) : ~ klt a a.
Proof. unfold klt. rewrite kcmp_refl. discriminate. Qed.

Lemma klt_trans (a b c : K) : klt a b -> klt b c -> klt a c.
Proof. apply kcmp_trans. Qed.

(** Being inside a closed interval whose ends coincide is equality. *)
Lemma kleb_antisym (a b : K) : kleb a b = true -> kleb b a = true -> a = b.
Proof.
  unfold kleb. rewrite (kcmp_antisym a b).
  destruct (kcmp a b) eqn:E; simpl; try discriminate.
  intros _ _. now apply kcmp_eq.
Qed.

Lemma kleb_refl (a : K) : kleb a a = true.
Proof. unfold kleb. now rewrite kcmp_refl. Qed.

(** [a <= b] fails exactly when [b < a]. *)
Lemma kleb_false_iff (a b : K) : kleb a b = false <-> klt b a.
Proof.
  unfold kleb, klt. rewrite <- kcmp_gt_lt.
  destruct (kcmp a b); split; congruence.
Qed.
End KeyOrderFacts.

#[export] Instance pair_order_laws {A B} `{KeyOrderLaws A} `{KeyOrderLaws B}
  : KeyOrderLaws (A * B).
Proof.
  constructor.
  - intros [a1 b1] [a2 b2]. simpl.
    destruct (kcmp a1 a2) eqn:E.
    + apply kcmp_eq in E. subst. rewrite kcmp_eq. split; congruence.
    + split; [discriminate|]. intros [= -> _]. rewrite kcmp_refl in E. discriminate.
    + split; [discriminate|]. intros [= -> _]. rewrite kcmp_refl in E. discriminate.
  - intros [a1 b1] [a2 b2]. simpl.
    rewrite (kcmp_antisym a1 a2).
    destruct (kcmp a1 a2); simpl; auto using kcmp_antisym.
  - intros [a1 b1] [a2 b2] [a3 b3]. simpl.
    destruct (kcmp a1 a2) eqn:E12; try discriminate;
      destruct (kcmp a2 a3) eqn:E23; try discriminate; intros H12 H23.
    + apply kcmp_eq in E12, E23. subst. rewrite kcmp_refl.
      eapply kcmp_trans; eauto.
    + apply kcmp_eq in E12. subst. now rewrite E23.
    + apply kcmp_eq in E23. subst. now rewrite E12.
    + now rewrite (kcmp_trans _ _ _ E12 E23).
Qed.

Lemma ts_key_inj (a b : Timestamp) : ts_key a = ts_key b -> a = b.
Proof. destruct a, b. unfold ts_key. simpl. congruence. Qed.

Lemma ts_kcmp (a b : Timestamp) : kcmp a b = kcmp (ts_key a) (ts_key b).
Proof. reflexivity. Qed.

#[export] Instance Timestamp_order_laws : KeyOrderLaws Timestamp.
Proof.
  constructor.
  - intros a b. rewrite ts_kcmp, kcmp_eq. split.
    + apply ts_key_inj.
    + now intros ->.
  - intros a b. rewrite !ts_kcmp. apply kcmp_antisym.
  - intros a b c. rewrite !ts_kcmp. apply kcmp_trans.
Qed.

(** ** Facts about the pandas primitives *)

Section GroupByFacts.
Import Pandas.
Context {K : Type} {KO : KeyOrder K} {KL : KeyOrderLaws K}.

#[local] Instance klt_Transitive : Transitive (@klt K _).
Proof. intros a b c. apply klt_trans. Qed.

Lemma insert_key_In (k x : K) (l : list K) :
  In x (insert_key k l) <-> x = k \/ In x l.
Proof.
  induction l as [|y t IH]; simpl.
  - intuition.
  - destruct (kcmp k y) eqn:E; simpl.
    + apply kcmp_eq in E. subst. intuition.
    + intuition.
    + rewrite IH. intuition.
Qed.

Lemma group_keys_In (x : K) (l : list K) : In x (group_keys l) <-> In x l.
Proof.
  induction l as [|y t IH]; simpl; [reflexivity|].
  rewrite insert_key_In, IH. intuition.
Qed.

Lemma insert_key_HdRel (a k : K) (l : list K) :
  klt a k -> HdRel klt a l -> HdRel klt a (insert_key k l).
Proof.
  intros Hak Hl. destruct l as [|y t]; simpl.
  - now constructor.
  - inversion Hl; subst. destruct (kcmp k y); now constructor.
Qed.

Lemma insert_key_Sorted (k : K) (l : list K) :
  Sorted klt l -> Sorted klt (insert_key k l).
Proof.
  induction l as [|y t IH]; intros Hs; simpl.
  - repeat constructor.
  - destruct (kcmp k y) eqn:E.
    + assumption.
    + constructor; [assumption | now constructor].
    + inversion Hs; subst. constructor; [now apply IH|].
      apply insert_key_HdRel; [|assumption].
      now apply kcmp_gt_lt.
Qed.

(** The group index is strictly ascending. *)
Lemma group_keys_sorted (l : list K) : StronglySorted klt (group_keys l).
Proof.
  apply Sorted_StronglySorted; [exact klt_Transitive|].
  induction l as [|y t IH]; simpl; [constructor|].
  now apply insert_key_Sorted.
Qed.

Lemma StronglySorted_klt_NoDup (l : list K) : StronglySorted klt l -> NoDup l.
Proof.
  induction 1 as [|a l _ IH Hall]; constructor; [|assumption].
  intros Hin. rewrite Forall_forall in Hall.
  exact (klt_irrefl (Hall _ Hin)).
Qed.

Lemma group_keys_NoDup (l : list K) : NoDup (group_keys l).
Proof. apply StronglySorted_klt_NoDup, group_keys_sorted. Qed.

Lemma unique_In (x : K) (l : list K) : In x (unique l) <-> In x l.
Proof.
  induction l as [|y t IH]; simpl; [reflexivity|].
  rewrite filter_In, IH, negb_true_iff, keqb_neq.
  destruct (keqb x y) eqn:E.
  - apply keqb_eq in E. subst. intuition.
  - apply keqb_neq in E. intuition.
Qed.

Lemma unique_NoDup (l : list K) : NoDup (unique l).
Proof.
  induction l as [|y t IH]; simpl; constructor.
  - rewrite filter_In, negb_true_iff, keqb_neq. intuition.
  - now apply NoDup_filter.
Qed.

Lemma isin_In (x : K) (values : list K) : isin x values = true <-> In x values.
Proof.
  unfold isin. rewrite existsb_exists. split.
  - intros (v & Hv & E). apply keqb_eq in E. now subst.
  - intros Hin. exists x. split; [assumption | apply keqb_refl].
Qed.

Context {R : Type}.
Variable key : R -> K.

Lemma get_group_In (k : K) (rows : list R) (r : R) :
  In r (get_group key k rows) <-> In r rows /\ key r = k.
Proof. unfold get_group. now rewrite filter_In, keqb_eq. Qed.

(** A key has a group exactly when some row carries it. *)
Lemma groupby_sum_index (col : R -> option Q) (rows : list R) :
  map fst (groupby_sum key col rows) = group_keys (map key rows).
Proof.
  unfold groupby_sum. rewrite map_map. simpl. apply map_id.
Qed.

Lemma groupby_size_index (rows : list R) :
  map fst (groupby_size key rows) = group_keys (map key rows).
Proof.
  unfold groupby_size. rewrite map_map. simpl. apply map_id.
Qed.

Lemma groupby_sum_In (col : R -> option Q) (rows : list R) (k : K) (v : Q) :
  In (k, v) (groupby_sum key col rows) <->
  (exists r, In r rows /\ key r = k) /\
  v = sum_skipna (map col (get_group key k rows)).
Proof.
  unfold groupby_sum. rewrite in_map_iff. split.
  - intros (k' & [= <- <-] & Hin).
    apply group_keys_In, in_map_iff in Hin.
    destruct Hin as (r & Hr & Hin). split; eauto.
  - intros ((r & Hin & Hr) & ->). exists k. split; [reflexivity|].
    apply group_keys_In, in_map_iff. eauto.
Qed.

Lemma groupby_size_In (rows : list R) (k : K) (c : Z) :
  In (k, c) (groupby_size key rows) <->
  (exists r, In r rows /\ key r = k) /\
  c = Z.of_nat (List.length (get_group key k rows)).
Proof.
  unfold groupby_size. rewrite in_map_iff. split.
  - intros (k' & [= <- <-] & Hin).
    apply group_keys_In, in_map_iff in Hin.
    destruct Hin as (r & Hr & Hin). split; eauto.
  - intros ((r & Hin & Hr) & ->). exists k. split; [reflexivity|].
    apply group_keys_In, in_map_iff. eauto.
Qed.

End GroupByFacts.

(** *** Sums *)

Section SumFacts.
Import Pandas.

Lemma sum_skipna_known (l : list (option Q)) :
  (sum_skipna l == Qsum (known l))%Q.
Proof.
  induction l as [|[q|] t IH]; simpl.
  - reflexivity.
  - now rewrite IH.
  - rewrite IH. ring.
Qed.

(** A group without a known amount sums to zero. *)
Lemma sum_skipna_all_nan (l : list (option Q)) :
  Forall (fun a => a = None) l -> sum_skipna l = 0%Q.
Proof.
  induction 1 as [|a t Ha _ IH]; simpl; [reflexivity|].
  subst. simpl. rewrite IH. reflexivity.
Qed.

Lemma series_sum_Permutation {K} (s1 s2 : list (K * Q)) :
  Permutation s1 s2 -> (series_sum s1 == series_sum s2)%Q.
Proof.
  induction 1 as [| x l1 l2 _ IH | x y l | l1 l2 l3 _ IH1 _ IH2]; simpl.
  - reflexivity.
  - now rewrite IH.
  - ring.
  - now rewrite IH1.
Qed.

Context {K : Type} {KO : KeyOrder K} {KL : KeyOrderLaws K} {R : Type}.
Variable key : R -> K.
Variable col : R -> option Q.

Lemma total_over_unfold (k : K) (ks : list K) (rows : list R) :
  total_over key col (k :: ks) rows =
  (sum_skipna (map col (get_group key k rows)) + total_over key col ks rows)%Q.
Proof. reflexivity. Qed.

Lemma get_group_cons (k : K) (r : R) (rows : list R) :
  get_group key k (r :: rows) =
  if keqb (key r) k then r :: get_group key k rows else get_group key k rows.
Proof. reflexivity. Qed.

Lemma total_over_nil (ks : list K) : (total_over key col ks [] == 0)%Q.
Proof.
  induction ks as [|k ks IH]; [reflexivity|].
  rewrite total_over_unfold, IH. simpl. ring.
Qed.

(** A row whose key is not listed adds nothing. *)
Lemma total_over_skip (ks : list K) (r : R) (rows : list R) :
  ~ In (key r) ks -> (total_over key col ks (r :: rows) == total_over key col ks rows)%Q.
Proof.
  induction ks as [|k ks IH]; intros Hnot; [reflexivity|].
  rewrite !total_over_unfold, get_group_cons.
  destruct (keqb (key r) k) eqn:E.
  - apply keqb_eq in E. exfalso. apply Hnot. now left.
  - rewrite IH; [reflexivity|]. intros Hin. apply Hnot. now right.
Qed.

(** A row whose key is listed once adds its amount once, NaN as zero. *)
Lemma total_over_cons (ks : list K) (r : R) (rows : list R) :
  NoDup ks -> In (key r) ks ->
  (total_over key col ks (r :: rows) == nan_to_zero (col r) + total_over key col ks rows)%Q.
Proof.
  induction 1 as [|k ks Hnot Hnd IH]; intros Hin; [destruct Hin|].
  rewrite !total_over_unfold, get_group_cons.
  destruct (keqb (key r) k) eqn:E.
  - apply keqb_eq in E. subst k.
    rewrite total_over_skip by assumption. simpl. ring.
  - apply keqb_neq in E. destruct Hin as [->|Hin]; [congruence|].
    rewrite (IH Hin). ring.
Qed.

Lemma total_over_all (ks : list K) (rows : list R) :
  NoDup ks -> (forall r, In r rows -> In (key r) ks) ->
  (total_over key col ks rows == sum_skipna (map col rows))%Q.
Proof.
  intros Hnd. induction rows as [|r rows IH]; intros Hall.
  - apply total_over_nil.
  - rewrite total_over_cons; [|assumption|apply Hall; now left].
    simpl. rewrite IH; [reflexivity|].
    intros r' Hr'. apply Hall. now right.
Qed.

(** The group totals add up to the total of the column. *)
Lemma groupby_sum_total (rows : list R) :
  (series_sum (groupby_sum key col rows) == sum_skipna (map col rows))%Q.
Proof.
  apply total_over_all.
  - apply group_keys_NoDup.
  - intros r Hr. apply group_keys_In, in_map, Hr.
Qed.

End SumFacts.

(** *** Sorting by value *)

Section SortFacts.
Import Pandas.
Context {K : Type}.

#[local] Instance value_le_Transitive : Transitive (@value_le K).
Proof. intros x y z. unfold value_le. apply Qle_trans. Qed.

Lemma insert_asc_Permutation (x : K * Q) (l : list (K * Q)) :
  Permutation (insert_asc x l) (x :: l).
Proof.
  induction l as [|y t IH]; simpl; [reflexivity|].
  destruct (Qle_bool (snd x) (snd y)); [reflexivity|].
  rewrite IH. apply perm_swap.
Qed.

Lemma argsort_asc_Permutation (l : list (K * Q)) :
  Permutation (argsort_asc l) l.
Proof.
  induction l as [|x t IH]; simpl; [reflexivity|].
  rewrite insert_asc_Permutation. now constructor.
Qed.

Lemma insert_asc_HdRel (a x : K * Q) (l : list (K * Q)) :
  value_le a x -> HdRel value_le a l -> HdRel value_le a (insert_asc x l).
Proof.
  intros Hax Hl. destruct l as [|y t]; simpl.
  - now constructor.
  - inversion Hl; subst. destruct (Qle_bool (snd x) (snd y)); now constructor.
Qed.

Lemma insert_asc_Sorted (x : K * Q) (l : list (K * Q)) :
  Sorted value_le l -> Sorted value_le (insert_asc x l).
Proof.
  induction l as [|y t IH]; intros Hs; simpl.
  - repeat constructor.
  - destruct (Qle_bool (snd x) (snd y)) eqn:E.
    + apply Qle_bool_iff in E. constructor; [assumption | now constructor].
    + inversion Hs; subst. constructor; [now apply IH|].
      apply insert_asc_HdRel; [|assumption].
      unfold value_le. apply Qlt_le_weak, Qnot_le_lt.
      rewrite <- Qle_bool_iff, E. discriminate.
Qed.

Lemma argsort_asc_sorted (l : list (K * Q)) :
  StronglySorted value_le (argsort_asc l).
Proof.
  apply Sorted_StronglySorted; [exact value_le_Transitive|].
  induction l as [|x t IH]; simpl; [constructor|].
  now apply insert_asc_Sorted.
Qed.

Lemma StronglySorted_snoc {A} (P : A -> A -> Prop) (l : list A) (a : A) :
  StronglySorted P l -> Forall (fun x => P x a) l ->
  StronglySorted P (l ++ [a]).
Proof.
  induction 1 as [|b l Hs IH Hb]; intros Hall; simpl.
  - repeat constructor.
  - inversion Hall; subst. constructor; [now apply IH|].
    apply Forall_app. split; [assumption | now constructor].
Qed.

Lemma StronglySorted_rev {A} (P : A -> A -> Prop) (l : list A) :
  StronglySorted P l -> StronglySorted (fun x y => P y x) (rev l).
Proof.
  induction 1 as [|a l Hs IH Ha]; simpl; [constructor|].
  apply StronglySorted_snoc; [assumption|].
  apply Forall_rev. exact Ha.
Qed.

Lemma firstn_In {A} (n : nat) (l : list A) (x : A) :
  In x (firstn n l) -> In x l.
Proof.
  intros Hx. rewrite <- (firstn_skipn n l). apply in_or_app. now left.
Qed.

Lemma StronglySorted_firstn {A} (P : A -> A -> Prop) (n : nat) (l : list A) :
  StronglySorted P l -> StronglySorted P (firstn n l).
Proof.
  intros Hs. revert n.
  induction Hs as [|a l Hs IH Ha]; intros [|n]; simpl; try constructor.
  - apply IH.
  - rewrite Forall_forall in *. intros x Hx.
    apply Ha. eapply firstn_In; eauto.
Qed.

Lemma sort_values_desc_Permutation (s : list (K * Q)) :
  Permutation (sort_values_desc s) s.
Proof.
  unfold sort_values_desc.
  rewrite <- Permutation_rev, argsort_asc_Permutation.
  symmetry. apply Permutation_rev.
Qed.

Lemma sort_values_desc_In (s : list (K * Q)) (x : K * Q) :
  In x (sort_values_desc s) <-> In x s.
Proof.
  split; apply Permutation_in;
    [|symmetry]; apply sort_values_desc_Permutation.
Qed.

Lemma sort_values_desc_length (s : list (K * Q)) :
  List.length (sort_values_desc s) = List.length s.
Proof. apply Permutation_length, sort_values_desc_Permutation. Qed.

Lemma sort_values_desc_sorted (s : list (K * Q)) :
  descending (sort_values_desc s).
Proof.
  unfold descending, sort_values_desc.
  apply (StronglySorted_rev (argsort_asc_sorted (rev s))).
Qed.


End SortFacts.

(** ** Selections *)

Lemma filter_Selects {A} (f : A -> bool) (P : A -> Prop) (l : list A) :
  (forall a, f a = true <-> P a) -> Selects P l (filter f l).
Proof.
  intros Hf. induction l as [|a l IH]; simpl; [constructor|].
  destruct (f a) eqn:E.
  - apply Selects_keep; [now apply Hf | assumption].
  - apply Selects_drop; [|assumption].
    intros HP. apply Hf in HP. congruence.
Qed.

Lemma Selects_In {A} (P : A -> Prop) (l l' : list A) (x : A) :
  Selects P l l' -> (In x l' <-> In x l /\ P x).
Proof.
  induction 1 as [|a l l' Ha _ IH|a l l' Ha _ IH]; simpl.
  - tauto.
  - rewrite IH. split.
    + intros [->|[? ?]]; auto.
    + intros [[->|?] ?]; auto.
  - rewrite IH. split.
    + intros [? ?]; auto.
    + intros [[->|?] ?]; [contradiction | auto].
Qed.

Lemma filter_filter_andb {A} (f g : A -> bool) (l : list A) :
  filter g (filter f l) = filter (fun a => f a && g a) l.
Proof.
  induction l as [|a l IH]; simpl; [reflexivity|].
  destruct (f a); simpl; [destruct (g a)|]; now rewrite IH.
Qed.

(** ** The filter (lines 22 and 26) *)

Section FilterFacts.
Import Pandas Script.

Lemma kleb_date_le (a b : Timestamp) : kleb a b = true <-> date_le a b.
Proof.
  unfold kleb, date_le. destruct (kcmp a b); split; congruence.
Qed.

Lemma masks_retained (s e : Timestamp) (sel : list string) (r : Row) :
  date_mask s e r && category_mask sel r = true <-> retained s e sel r.
Proof.
  unfold date_mask, category_mask, retained.
  rewrite !andb_true_iff, !kleb_date_le, isin_In. tauto.
Qed.

Lemma df_filtered_filter (df : DataFrame) (s e : Timestamp) (sel : list string) :
  df_filtered df s e sel =
  filter (fun r => date_mask s e r && category_mask sel r) df.
Proof. apply filter_filter_andb. Qed.

Lemma df_filtered_Selects (df : DataFrame) (s e : Timestamp) (sel : list string) :
  Selects (retained s e sel) df (df_filtered df s e sel).
Proof.
  rewrite df_filtered_filter. apply filter_Selects. apply masks_retained.
Qed.

Lemma df_filtered_In (df : DataFrame) (s e : Timestamp) (sel : list string) (r : Row) :
  In r (df_filtered df s e sel) <-> In r df /\ retained s e sel r.
Proof. apply Selects_In, df_filtered_Selects. Qed.

Lemma date_le_antisym (a b : Timestamp) : date_le a b -> date_le b a -> a = b.
Proof. rewrite <- !kleb_date_le. apply kleb_antisym. Qed.

Lemma date_le_refl (a : Timestamp) : date_le a a.
Proof. apply kleb_date_le, kleb_refl. Qed.

Lemma date_le_gt (a b : Timestamp) : klt b a -> ~ date_le a b.
Proof.
  intros Hlt Hle. apply kleb_date_le in Hle.
  apply kleb_false_iff in Hlt. congruence.
Qed.

Lemma date_le_trans (a b c : Timestamp) : date_le a b -> date_le b c -> date_le a c.
Proof.
  unfold date_le. intros Hab Hbc Hac. apply kcmp_gt_lt in Hac.
  destruct (kcmp a b) eqn:E1; [| |congruence].
  - apply kcmp_eq in E1. subst. apply kcmp_gt_lt in Hac. congruence.
  - destruct (kcmp b c) eqn:E2; [| |congruence].
    + apply kcmp_eq in E2. subst. rewrite (kcmp_antisym c a), Hac in E1.
      discriminate.
    + pose proof (kcmp_trans _ _ _ Hac E1) as Hcb.
      rewrite (kcmp_antisym b c), E2 in Hcb. discriminate.
Qed.

(** An empty range or an empty selection leaves no row. *)
Lemma df_filtered_empty (df : DataFrame) (s e : Timestamp) (sel : list string) :
  klt e s \/ sel = [] -> df_filtered df s e sel = [].
Proof.
  intros Hcase.
  destruct (df_filtered df s e sel) as [|r t] eqn:E; [reflexivity|].
  assert (Hin : In r (df_filtered df s e sel)) by (rewrite E; now left).
  apply df_filtered_In in Hin. destruct Hin as (_ & Hs & He & Hc).
  destruct Hcase as [Hlt | ->]; [|destruct Hc].
  exfalso. apply (date_le_gt Hlt). eapply date_le_trans; eauto.
Qed.

Lemma status_mask_iff (r : Row) :
  status_mask r = true <->
  Status r = "PENDING"%string \/ Status r = "FAILED"%string.
Proof.
  unfold status_mask. rewrite isin_In. simpl.
  split; intros H; [destruct H as [<-|[<-|[]]]|destruct H as [->| ->]]; auto.
Qed.

End FilterFacts.


(** ** The claims *)

Import Pandas Script.

(** *** The groups partition the frame *)

Section PartitionFacts.
Context {K : Type} {KO : KeyOrder K} {KL : KeyOrderLaws K} {R : Type}.
Variable key : R -> K.

Lemma groups_of_nil (ks : list K) :
  flat_map (fun k => get_group key k []) ks = [].
Proof. induction ks as [|k ks IH]; simpl; [reflexivity | exact IH]. Qed.

Lemma groups_skip (ks : list K) (r : R) (rows : list R) :
  ~ In (key r) ks ->
  flat_map (fun k => get_group key k (r :: rows)) ks
  = flat_map (fun k => get_group key k rows) ks.
Proof.
  induction ks as [|k ks IH]; intros Hnot; [reflexivity|].
  cbn [flat_map]. rewrite get_group_cons.
  destruct (keqb (key r) k) eqn:E.
  - apply keqb_eq in E. exfalso. apply Hnot. now left.
  - rewrite IH; [reflexivity|]. intros Hin. apply Hnot. now right.
Qed.

Lemma groups_cons (ks : list K) (r : R) (rows : list R) :
  NoDup ks -> In (key r) ks ->
  Permutation (flat_map (fun k => get_group key k (r :: rows)) ks)
              (r :: flat_map (fun k => get_group key k rows) ks).
Proof.
  induction 1 as [|k ks Hnot Hnd IH]; intros Hin; [destruct Hin|].
  cbn [flat_map]. rewrite get_group_cons.
  destruct (keqb (key r) k) eqn:E.
  - apply keqb_eq in E. subst k. rewrite groups_skip by assumption.
    reflexivity.
  - apply keqb_neq in E. destruct Hin as [->|Hin]; [congruence|].
    rewrite (IH Hin). symmetry. apply Permutation_middle.
Qed.

(** Every row lies in exactly one group. *)
Lemma groups_partition (ks : list K) (rows : list R) :
  NoDup ks -> (forall r, In r rows -> In (key r) ks) ->
  Permutation (flat_map (fun k => get_group key k rows) ks) rows.
Proof.
  intros Hnd. induction rows as [|r rows IH]; intros Hall.
  - now rewrite groups_of_nil.
  - rewrite groups_cons; [|assumption|apply Hall; now left].
    constructor. apply IH. intros r' Hr'. apply Hall. now right.
Qed.

Lemma group_keys_partition (rows : list R) :
  Permutation (flat_map (fun k => get_group key k rows)
                        (group_keys (map key rows))) rows.
Proof.
  apply groups_partition.
  - apply group_keys_NoDup.
  - intros r Hr. apply group_keys_In, in_map, Hr.
Qed.

End PartitionFacts.

Lemma flat_map_map_entries {A B C} (f : B -> list C) (g : A -> B) (l : list A) :
  flat_map f (map g l) = flat_map (fun x => f (g x)) l.
Proof.
  induction l as [|a l IH]; simpl; [reflexivity|]. now rewrite IH.
Qed.

(** The rows of the groups a sorted summary lists are the rows of the
    frame, rearranged. *)
Lemma summary_groups_partition {K} {KO : KeyOrder K} {KL : KeyOrderLaws K}
  (key : Row -> K) (d : DataFrame) :
  Permutation
    (flat_map (fun entry => get_group key (fst entry) d)
              (sort_values_desc (groupby_sum key Amount d)))
    d.
Proof.
  rewrite (sort_values_desc_Permutation (groupby_sum key Amount d)).
  unfold groupby_sum. rewrite flat_map_map_entries. simpl.
  apply group_keys_partition.
Qed.

Lemma known_app (l1 l2 : list (option Q)) :
  known (l1 ++ l2) = known l1 ++ known l2.
Proof.
  induction l1 as [|[q|] l1 IH]; simpl; [reflexivity| |assumption].
  now rewrite IH.
Qed.

Lemma known_Permutation (l1 l2 : list (option Q)) :
  Permutation l1 l2 -> Permutation (known l1) (known l2).
Proof.
  induction 1 as [| [q|] l1 l2 _ IH | [x|] [y|] l | l1 l2 l3 _ IH1 _ IH2];
    simpl; auto.
  - apply perm_swap.
  - now transitivity (known l2).
Qed.

Lemma known_amounts_flat_map {A} (g : A -> DataFrame) (l : list A) :
  known (map Amount (flat_map g l))
  = flat_map (fun x => known (map Amount (g x))) l.
Proof.
  induction l as [|a l IH]; simpl; [reflexivity|].
  now rewrite map_app, known_app, IH.
Qed.

Lemma sorted_groupby_entries {K} {KO : KeyOrder K} {KL : KeyOrderLaws K}
  (key : Row -> K) (d : DataFrame) :
  Forall (fun entry =>
            (snd entry
             == Qsum (known (map Amount (get_group key (fst entry) d))))%Q)
         (sort_values_desc (groupby_sum key Amount d)).
Proof.
  apply Forall_forall. intros [k v] Hin.
  apply sort_values_desc_In, groupby_sum_In in Hin.
  destruct Hin as (_ & ->). simpl. apply sum_skipna_known.
Qed.

(** *** Category totals in binary64 *)

Lemma float_insert_asc_Permutation {K} (x : K * PrimFloat.float)
  (l : list (K * PrimFloat.float)) :
  Permutation (Float64.insert_asc x l) (x :: l).
Proof.
  induction l as [|y t IH]; simpl; [reflexivity|].
  destruct (PrimFloat.leb (snd x) (snd y)); [reflexivity|].
  rewrite IH. apply perm_swap.
Qed.

Lemma float_sort_values_desc_Permutation {K} (s : list (K * PrimFloat.float)) :
  Permutation (Float64.sort_values_desc s) s.
Proof.
  unfold Float64.sort_values_desc. rewrite <- Permutation_rev.
  transitivity (rev s); [|symmetry; apply Permutation_rev].
  induction (rev s) as [|x t IH]; simpl; [reflexivity|].
  rewrite float_insert_asc_Permutation. now constructor.
Qed.

Lemma float_category_summary_entries (d : DataFrame) :
  Forall (fun entry =>
            snd entry
            = Float64.group_sum
                (map (fun r => Float64.to_numeric (Amount r))
                     (get_group Category (fst entry) d)))
         (Float64.category_summary d).
Proof.
  apply Forall_forall. intros [k v] Hin.
  unfold Float64.category_summary in Hin.
  apply (Permutation_in _ (float_sort_values_desc_Permutation _)) in Hin.
  unfold Float64.groupby_sum in Hin. apply in_map_iff in Hin.
  destruct Hin as (k' & [= <- <-] & _). reflexivity.
Qed.

Lemma float_category_summary_index (d : DataFrame) :
  Permutation (map fst (Float64.category_summary d))
              (map fst (category_summary d)).
Proof.
  unfold Float64.category_summary, category_summary.
  rewrite (float_sort_values_desc_Permutation (Float64.groupby_sum Category d)).
  rewrite (sort_values_desc_Permutation (groupby_sum Category Amount d)).
  unfold Float64.groupby_sum, groupby_sum. rewrite !map_map. reflexivity.
Qed.

(** C1, as stated, fails in the arithmetic of the script: with 0.1 for
    food and 0.2 and 0.3 for travel the category totals, 0.5 and 0.1, add
    up to 0.6, and the three amounts to the next float after 0.6. *)
Lemma C1_counterexample :
  PrimFloat.eqb
    (Float64.sum
       (map snd
          (Float64.category_summary
             (df_filtered Examples.tenths Examples.first_day Examples.last_day
                          Examples.all_categories))))
    (Float64.sum
       (map (fun r => Float64.to_numeric (Amount r))
            (df_filtered Examples.tenths Examples.first_day Examples.last_day
                         Examples.all_categories)))
  = false
  /\ PrimFloat.eqb
       (Float64.sum
          (map snd
             (Float64.category_summary
                (df_filtered Examples.tenths Examples.first_day
                             Examples.last_day Examples.all_categories))))
       (Float64.of_Q (6 # 10))
     = true
  /\ PrimFloat.eqb
       (Float64.sum
          (map (fun r => Float64.to_numeric (Amount r))
               (df_filtered Examples.tenths Examples.first_day
                            Examples.last_day Examples.all_categories)))
       (PrimFloat.next_up (Float64.of_Q (6 # 10)))
     = true.
Proof. repeat split; vm_compute; reflexivity. Qed.

(** C1, amended. The category totals are sums over a partition of the
    filtered rows: the known amounts of the groups listed in
    [categoryTotals] are, taken together, the known amounts of the filtered
    rows, each once, and a row whose amount was coerced to NaN adds to no
    total.  Each total is the sum of the known amounts of its group, in
    exact arithmetic and, compensated and rounded, in binary64, for the
    same categories.  In exact arithmetic the totals therefore add up to
    the sum of the known amounts of the filtered rows. *)
Theorem C1_category_totals_partition_known_amounts
  (df : DataFrame) (start_date end_date : Timestamp)
  (selected_categories : list string) :
  Permutation
    (flat_map
       (fun entry =>
          known (map Amount
                   (get_group Category (fst entry)
                      (df_filtered df start_date end_date selected_categories))))
       (categoryTotals (aggregate df start_date end_date selected_categories)))
    (known (map Amount
              (df_filtered df start_date end_date selected_categories)))
  /\ Forall
       (fun entry =>
          (snd entry
           == Qsum (known (map Amount
                      (get_group Category (fst entry)
                         (df_filtered df start_date end_date
                                      selected_categories)))))%Q)
       (categoryTotals (aggregate df start_date end_date selected_categories))
  /\ Forall
       (fun entry =>
          snd entry
          = Float64.group_sum
              (map (fun r => Float64.to_numeric (Amount r))
                   (get_group Category (fst entry)
                      (df_filtered df start_date end_date
                                   selected_categories))))
       (Float64.category_summary
          (df_filtered df start_date end_date selected_categories))
  /\ Permutation
       (map fst
          (Float64.category_summary
             (df_filtered df start_date end_date selected_categories)))
       (map fst
          (categoryTotals
             (aggregate df start_date end_date selected_categories)))
  /\ (series_sum
        (categoryTotals (aggregate df start_date end_date selected_categories))
      == Qsum (known (map Amount
                        (df_filtered df start_date end_date
                                     selected_categories))))%Q.
Proof.
  cbn [aggregate categoryTotals]. unfold category_summary.
  split; [|split; [|split; [|split]]].
  - rewrite <- known_amounts_flat_map.
    apply known_Permutation, Permutation_map, summary_groups_partition.
  - apply sorted_groupby_entries.
  - apply float_category_summary_entries.
  - apply float_category_summary_index.
  - rewrite (series_sum_Permutation (sort_values_desc_Permutation _)).
    rewrite groupby_sum_total. apply sum_skipna_known.
Qed.

(** C8. The filter keeps exactly the rows whose date lies between the start
    and the end date, both included, and whose category is selected, in
    ledger order; when the two dates coincide it keeps exactly the rows of
    that date. *)
Theorem C8_date_filter_inclusive
  (df : DataFrame) (start_date end_date : Timestamp)
  (selected_categories : list string) :
  Selects (retained start_date end_date selected_categories) df
          (df_filtered df start_date end_date selected_categories)
  /\ (forall r,
        In r (df_filtered df start_date end_date selected_categories) <->
        In r df /\ date_le start_date (Date r) /\ date_le (Date r) end_date /\
        In (Category r) selected_categories)
  /\ (forall r,
        In r (df_filtered df start_date start_date selected_categories) <->
        In r df /\ Date r = start_date /\ In (Category r) selected_categories).
Proof.
  split; [apply df_filtered_Selects|]. split.
  - intros r. apply df_filtered_In.
  - intros r. rewrite df_filtered_In. unfold retained. split.
    + intros (Hin & Hs & He & Hc). repeat split; auto.
      symmetry. now apply date_le_antisym.
    + intros (Hin & <- & Hc). repeat split; auto using date_le_refl.
Qed.

Lemma wasteful_status_table_rows (ws : DataFrame) :
  Forall2 (fun r shown => shown = (Date r, Receiver r, Amount r, Status r))
          ws (wasteful_status_table ws).
Proof.
  induction ws as [|r ws IH]; simpl; constructor; [reflexivity | exact IH].
Qed.

(** C5. [wastefulStatus] holds exactly the filtered rows whose status is
    PENDING or FAILED, whatever their amount, in the order of the filtered
    frame; a COMPLETED row is never in it; the table shown for it has the
    date, receiver, amount and status of each row. *)
Theorem C5_wasteful_status_selection
  (df : DataFrame) (start_date end_date : Timestamp)
  (selected_categories : list string) :
  Selects (fun r => Status r = "PENDING"%string \/ Status r = "FAILED"%string)
          (df_filtered df start_date end_date selected_categories)
          (wastefulStatus (aggregate df start_date end_date selected_categories))
  /\ (forall r,
        In r (wastefulStatus (aggregate df start_date end_date selected_categories)) <->
        In r (df_filtered df start_date end_date selected_categories) /\
        (Status r = "PENDING"%string \/ Status r = "FAILED"%string))
  /\ (forall r,
        In r (wastefulStatus (aggregate df start_date end_date selected_categories)) ->
        Status r <> "COMPLETED"%string)
  /\ Forall2 (fun r shown => shown = (Date r, Receiver r, Amount r, Status r))
       (wastefulStatus (aggregate df start_date end_date selected_categories))
       (wasteful_status_table
          (wastefulStatus (aggregate df start_date end_date selected_categories))).
Proof.
  assert (Hsel : Selects
    (fun r => Status r = "PENDING"%string \/ Status r = "FAILED"%string)
    (df_filtered df start_date end_date selected_categories)
    (wastefulStatus (aggregate df start_date end_date selected_categories))).
  { apply filter_Selects. apply status_mask_iff. }
  split; [exact Hsel|]. split; [|split].
  - intros r. apply (Selects_In r Hsel).
  - intros r Hr. apply (Selects_In r Hsel) in Hr.
    destruct Hr as [_ [E|E]]; rewrite E; discriminate.
  - apply wasteful_status_table_rows.
Qed.

(** C10. A filtered row whose status is PENDING or FAILED is in
    [wastefulStatus] also when its amount is NaN, and is then shown with
    the unknown amount. *)
Theorem C10_status_detection_ignores_amount
  (df : DataFrame) (start_date end_date : Timestamp)
  (selected_categories : list string) (r : Row) :
  In r (df_filtered df start_date end_date selected_categories) ->
  Amount r = None ->
  Status r = "PENDING"%string \/ Status r = "FAILED"%string ->
  In r (wastefulStatus (aggregate df start_date end_date selected_categories))
  /\ In (Date r, Receiver r, None, Status r)
        (wasteful_status_table
           (wastefulStatus (aggregate df start_date end_date selected_categories))).
Proof.
  intros Hin Hnan Hst.
  assert (Hws : In r (wastefulStatus
                        (aggregate df start_date end_date selected_categories))).
  { simpl. unfold wasteful_status. apply filter_In. split; [exact Hin|].
    now apply status_mask_iff. }
  split; [exact Hws|].
  unfold wasteful_status_table. rewrite <- Hnan.
  apply (in_map (fun r => (Date r, Receiver r, Amount r, Status r)) _ _ Hws).
Qed.

(** C10 on the failed cab ride of [Examples.mixed_status], whose amount is
    NaN. *)
Lemma C10_witness :
  In (Examples.payment (Examples.date 2024 2 1) 8 None "Travel" "Cab" "FAILED")
     (wastefulStatus
        (aggregate Examples.mixed_status Examples.first_day Examples.last_day
                   Examples.all_categories))
  /\ In (Examples.date 2024 2 1, "Cab"%string, None, "FAILED"%string)
        (wasteful_status_table
           (wastefulStatus
              (aggregate Examples.mixed_status Examples.first_day
                         Examples.last_day Examples.all_categories))).
Proof.
  apply (@C10_status_detection_ignores_amount Examples.mixed_status
           Examples.first_day Examples.last_day Examples.all_categories
           (Examples.payment (Examples.date 2024 2 1) 8 None "Travel" "Cab" "FAILED")).
  - vm_compute. left. reflexivity.
  - reflexivity.
  - right. reflexivity.
Defined.

(** ** Small recurring payments (lines 33-35) *)

Lemma amount_lt_500_iff (r : Row) :
  amount_lt (Amount r) 500 = true <-> small_known r.
Proof.
  unfold amount_lt, small_known. destruct (Amount r) as [q|].
  - rewrite negb_true_iff. split.
    + intros E. exists q. split; [reflexivity|].
      apply Qnot_le_lt. rewrite <- Qle_bool_iff, E. discriminate.
    + intros (q' & [= <-] & Hlt).
      destruct (Qle_bool 500 q) eqn:E; [|reflexivity].
      apply Qle_bool_iff in E. exfalso. exact (Qlt_not_le _ _ Hlt E).
  - split; [discriminate|]. intros (q & [=] & _).
Qed.

Lemma Selects_functional {A} (P : A -> Prop) (l l1 l2 : list A) :
  Selects P l l1 -> Selects P l l2 -> l1 = l2.
Proof.
  intros H1. revert l2.
  induction H1 as [|a l l1 Ha _ IH|a l l1 Ha _ IH]; intros l2 H2;
    inversion H2; subst; try contradiction; auto.
  f_equal. now apply IH.
Qed.

(** The rows counted for one (receiver, month) group. *)
Lemma recurring_group_Selects (d : DataFrame) (receiver : string) (m : Period) :
  Selects (small_payment_to receiver m) d
    (get_group (fun r => (Receiver r, Month r)) (receiver, m)
               (small_transactions d)).
Proof.
  unfold get_group, small_transactions. rewrite filter_filter_andb.
  apply filter_Selects. intros r.
  rewrite andb_true_iff, amount_lt_500_iff, keqb_eq. unfold small_payment_to.
  split.
  - intros (Hs & [= -> ->]). auto.
  - intros (Hs & -> & ->). auto.
Qed.

Lemma wasteful_small_In (d : DataFrame) (receiver : string) (m : Period) (c : Z) :
  In ((receiver, m), c) (wasteful_small (recurring (small_transactions d))) <->
  3 < c /\
  c = Z.of_nat (List.length
        (get_group (fun r => (Receiver r, Month r)) (receiver, m)
                   (small_transactions d))).
Proof.
  unfold wasteful_small, recurring.
  rewrite filter_In, groupby_size_In. simpl. rewrite Z.ltb_lt. split.
  - intros ((_ & Hc) & Hgt). auto.
  - intros (Hgt & Hc). split; [split|]; auto.
    destruct (get_group (fun r => (Receiver r, Month r)) (receiver, m)
                        (small_transactions d)) as [|r t] eqn:E.
    + simpl in Hc. lia.
    + assert (Hr : In r (r :: t)) by now left.
      rewrite <- E in Hr. apply get_group_In in Hr. exists r. exact Hr.
Qed.

(** C2. [wastefulRecurring] lists a (receiver, month) group with count [c]
    exactly when [c] is the number of filtered rows with a known amount
    strictly below 500 paid to that receiver in that month and [c] is
    strictly greater than 3.  Three payments of 100 to one merchant in one
    month are not listed; with a fourth the merchant is listed with count 4. *)
Theorem C2_wasteful_recurring_threshold
  (df : DataFrame) (start_date end_date : Timestamp)
  (selected_categories : list string) :
  (forall receiver m c,
     In ((receiver, m), c)
        (wastefulRecurring (aggregate df start_date end_date selected_categories))
     <->
     3 < c /\
     exists rows,
       Selects (small_payment_to receiver m)
               (df_filtered df start_date end_date selected_categories) rows /\
       c = Z.of_nat (List.length rows))
  /\ wastefulRecurring
       (aggregate Examples.three_coffees Examples.first_day Examples.last_day
                  Examples.all_categories) = []
  /\ wastefulRecurring
       (aggregate Examples.four_coffees Examples.first_day Examples.last_day
                  Examples.all_categories)
     = [(("Coffee Shop"%string, (2024, 1)), 4)].
Proof.
  split; [|split; reflexivity].
  intros receiver m c. simpl. rewrite wasteful_small_In. split.
  - intros (Hgt & Hc). split; [exact Hgt|].
    eexists. split; [apply recurring_group_Selects | exact Hc].
  - intros (Hgt & rows & Hsel & Hc). split; [exact Hgt|].
    rewrite Hc. do 2 f_equal.
    eapply Selects_functional; [exact Hsel | apply recurring_group_Selects].
Qed.

(** ** Top merchants (line 31) *)

Lemma group_keys_length_nodup {K} {KO : KeyOrder K} {KL : KeyOrderLaws K}
  (dec : forall a b : K, {a = b} + {a <> b}) (l : list K) :
  List.length (group_keys l) = List.length (nodup dec l).
Proof.
  apply Permutation_length, NoDup_Permutation.
  - apply group_keys_NoDup.
  - apply NoDup_nodup.
  - intros x. now rewrite group_keys_In, nodup_In.
Qed.

Lemma merchant_totals_length (d : DataFrame) :
  List.length (merchant_totals d) =
  List.length (nodup string_dec (map Receiver d)).
Proof.
  unfold merchant_totals. rewrite sort_values_desc_length.
  rewrite <- (length_map fst), groupby_sum_index.
  apply group_keys_length_nodup.
Qed.

Lemma top_merchants_length (d : DataFrame) :
  List.length (top_merchants d) =
  Nat.min 5 (List.length (nodup string_dec (map Receiver d))).
Proof.
  unfold top_merchants, head.
  now rewrite length_firstn, merchant_totals_length.
Qed.

Lemma top_merchants_descending (d : DataFrame) : descending (top_merchants d).
Proof.
  unfold top_merchants, head, descending.
  apply StronglySorted_firstn. apply sort_values_desc_sorted.
Qed.



(** ** Monthly trend (lines 85-86) *)

Lemma StronglySorted_map {A B} (Ra : A -> A -> Prop) (Rb : B -> B -> Prop)
  (f : A -> B) (l : list A) :
  (forall x y, Ra x y -> Rb (f x) (f y)) ->
  StronglySorted Ra l -> StronglySorted Rb (map f l).
Proof.
  intros Hmono. induction 1 as [|a l _ IH Ha]; simpl; constructor; auto.
  rewrite Forall_forall in *. intros y Hy.
  apply in_map_iff in Hy. destruct Hy as (x & <- & Hx). auto.
Qed.

(** A later month starts on a later day. *)
Lemma to_timestamp_increasing (p q : Period) :
  klt p q -> klt (to_timestamp p) (to_timestamp q).
Proof.
  destruct p as [y1 m1], q as [y2 m2]. unfold klt.
  cbv [kcmp pair_order Z_order Timestamp_order ts_key to_timestamp
       year month day fst snd].
  destruct (y1 ?= y2); [|trivial|trivial].
  destruct (m1 ?= m2); trivial.
Qed.

Lemma monthly_trend_index (d : DataFrame) :
  map fst (monthly_trend d) = map to_timestamp (group_keys (map Month d)).
Proof.
  unfold monthly_trend, monthly_trend_by_period.
  rewrite map_map. simpl. rewrite <- (map_map fst to_timestamp).
  now rewrite groupby_sum_index.
Qed.

(** C4. The index of [monthlyTrend] is strictly ascending in calendar
    order, one entry per month of the filtered frame; it is computed from
    the dates alone, whatever the totals are.  On a ledger whose monthly
    totals shrink over time the trend still runs from the earliest month to
    the latest. *)
Theorem C4_monthly_trend_chronological
  (df : DataFrame) (start_date end_date : Timestamp)
  (selected_categories : list string) :
  StronglySorted klt
    (map fst (monthlyTrend (aggregate df start_date end_date selected_categories)))
  /\ map fst (monthlyTrend (aggregate df start_date end_date selected_categories))
     = map to_timestamp
         (group_keys
            (map Month (df_filtered df start_date end_date selected_categories)))
  /\ monthlyTrend
       (aggregate Examples.shrinking_months Examples.first_day
                  Examples.last_day Examples.all_categories)
     = [ (Examples.date 2023 12 1, 300%Q);
         (Examples.date 2024 1 1, 200%Q);
         (Examples.date 2024 3 1, 10%Q) ].
Proof.
  split; [|split].
  - simpl. rewrite monthly_trend_index.
    apply (@StronglySorted_map _ _ klt klt to_timestamp).
    + apply to_timestamp_increasing.
    + apply group_keys_sorted.
  - apply monthly_trend_index.
  - reflexivity.
Qed.

(** ** Groups appear whatever their total (lines 28-31) *)

Lemma summary_lists_every_group {K} {KO : KeyOrder K} {KL : KeyOrderLaws K}
  (key : Row -> K) (d : DataFrame) (r : Row) :
  In r d ->
  listed_with_group_total key d
    (sort_values_desc (groupby_sum key Amount d)) r.
Proof.
  intros Hin.
  exists (sum_skipna (map Amount (get_group key (key r) d))),
         (get_group key (key r) d).
  split; [|split; [|split]].
  - apply sort_values_desc_In, groupby_sum_In. split; [|reflexivity].
    exists r. auto.
  - apply filter_Selects. intros r'. apply keqb_eq.
  - apply sum_skipna_known.
  - intros Hnan. apply sum_skipna_all_nan.
    apply Forall_forall. intros a Ha.
    apply in_map_iff in Ha. destruct Ha as (r' & <- & Hr'). auto.
Qed.

Lemma top_merchants_all (d : DataFrame) :
  (List.length (nodup string_dec (map Receiver d)) <= 5)%nat ->
  top_merchants d = merchant_totals d.
Proof.
  intros Hle. unfold top_merchants, head.
  apply firstn_all2. now rewrite merchant_totals_length.
Qed.

(** C7, as stated, fails for merchants: the sixth merchant by total is cut
    from [topMerchants], here one whose payments cancel out to zero. *)
Lemma C7_counterexample :
  ~ (forall receiver total,
       In (receiver, total)
          (merchant_totals
             (df_filtered Examples.six_merchants Examples.first_day
                          Examples.last_day Examples.all_categories)) ->
       (total <= 0)%Q ->
       In receiver
          (map fst
             (topMerchants
                (aggregate Examples.six_merchants Examples.first_day
                           Examples.last_day Examples.all_categories)))).
Proof.
  intros Hclaim.
  specialize (Hclaim "Outlet"%string 0%Q).
  assert (Hcut : ~ In "Outlet"%string
            (map fst
               (topMerchants
                  (aggregate Examples.six_merchants Examples.first_day
                             Examples.last_day Examples.all_categories)))).
  { vm_compute. intros H.
    repeat (destruct H as [H|H]; [discriminate H|]). exact H. }
  apply Hcut, Hclaim.
  - vm_compute. do 5 right. left. reflexivity.
  - discriminate.
Qed.

(** C7, amended. Every category, weekday and hour of a filtered row is
    listed in its summary with the sum of the known amounts of its rows,
    NaN amounts adding nothing and a group without a known amount being
    listed with 0; no total, positive, zero or negative, removes a group.
    Every receiver is listed in the same way in the per-receiver totals,
    of which [topMerchants] is the first five entries: a receiver appears
    in [topMerchants] whenever there are at most five distinct receivers. *)
Theorem C7_groups_listed_whatever_their_total
  (df : DataFrame) (start_date end_date : Timestamp)
  (selected_categories : list string) (r : Row) :
  In r (df_filtered df start_date end_date selected_categories) ->
  listed_with_group_total Category
    (df_filtered df start_date end_date selected_categories)
    (categoryTotals (aggregate df start_date end_date selected_categories)) r
  /\ listed_with_group_total DayOfWeek
       (df_filtered df start_date end_date selected_categories)
       (dayOfWeekTotals (aggregate df start_date end_date selected_categories)) r
  /\ listed_with_group_total Hour
       (df_filtered df start_date end_date selected_categories)
       (hourTotals (aggregate df start_date end_date selected_categories)) r
  /\ listed_with_group_total Receiver
       (df_filtered df start_date end_date selected_categories)
       (merchant_totals (df_filtered df start_date end_date selected_categories)) r
  /\ topMerchants (aggregate df start_date end_date selected_categories)
     = firstn 5
         (merchant_totals (df_filtered df start_date end_date selected_categories))
  /\ ((List.length
         (nodup string_dec
            (map Receiver
               (df_filtered df start_date end_date selected_categories)))
       <= 5)%nat ->
      listed_with_group_total Receiver
        (df_filtered df start_date end_date selected_categories)
        (topMerchants (aggregate df start_date end_date selected_categories)) r).
Proof.
  intros Hin. simpl.
  repeat split; try (now apply summary_lists_every_group).
  intros Hfew. rewrite (top_merchants_all _ Hfew).
  now apply summary_lists_every_group.
Qed.

(** C7 on the refund row of [Examples.six_merchants]: its category is
    listed although the category's total is zero. *)
Lemma C7_witness :
  listed_with_group_total Category
    (df_filtered Examples.six_merchants Examples.first_day Examples.last_day
                 Examples.all_categories)
    (categoryTotals
       (aggregate Examples.six_merchants Examples.first_day Examples.last_day
                  Examples.all_categories))
    (Examples.payment (Examples.date 2024 1 9) 9 (Some (-60)%Q)
                      "Shopping" "Outlet" "COMPLETED").
Proof.
  apply (@C7_groups_listed_whatever_their_total Examples.six_merchants
           Examples.first_day Examples.last_day Examples.all_categories
           (Examples.payment (Examples.date 2024 1 9) 9 (Some (-60)%Q)
                             "Shopping" "Outlet" "COMPLETED")).
  vm_compute. do 6 right. left. reflexivity.
Defined.

(** ** The pass over the module namespace *)

Lemma frame_bound (g : Globals.Namespace) (name : string) (d : DataFrame) :
  Globals.frame g name = Some d -> g name = Some (Globals.VFrame d).
Proof.
  unfold Globals.frame. destruct (g name) as [[]|]; congruence.
Qed.

(** With the ledger loaded, the pass runs to the end, leaves in the
    namespace the bundle [aggregate] computes from the ledger and the
    widget values, and changes no name other than those it assigns. *)
Lemma run_computes_aggregate (start_date end_date : Timestamp)
  (selection : list string) (g : Globals.Namespace) (df : DataFrame) :
  Globals.frame g "df" = Some df ->
  exists g',
    Globals.run start_date end_date selection g = Some g' /\
    Globals.bundle g' = Some (aggregate df start_date end_date selection) /\
    (forall x, ~ In x assigned_names -> g' x = g x).
Proof.
  intros Hdf. apply frame_bound in Hdf.
  unfold Globals.run, Globals.line_22, Globals.line_24, Globals.line_25,
    Globals.line_26, Globals.line_28, Globals.line_29, Globals.line_30,
    Globals.line_31, Globals.line_33, Globals.line_34, Globals.line_35,
    Globals.line_36, Globals.assign_from_frame.
  unfold Globals.frame at 1. rewrite Hdf. cbn.
  eexists. split; [reflexivity|]. split.
  - reflexivity.
  - intros x Hx. unfold Globals.assign.
    repeat match goal with
           | |- context [String.eqb x ?n] =>
               destruct (String.eqb_spec x n) as [->|_];
               [exfalso; apply Hx; simpl; tauto|]
           end.
    reflexivity.
Qed.

(** C6. When the start date is after the end date, or no category is
    selected, the bundle is the empty one, and the pass over the module
    namespace completes without an error and leaves that empty bundle. *)
Theorem C6_empty_filter_gives_empty_bundle
  (df : DataFrame) (start_date end_date : Timestamp)
  (selected_categories : list string) (g : Globals.Namespace) :
  klt end_date start_date \/ selected_categories = [] ->
  Globals.frame g "df" = Some df ->
  aggregate df start_date end_date selected_categories = empty_bundle
  /\ exists g',
       Globals.run start_date end_date selected_categories g = Some g' /\
       Globals.bundle g' = Some empty_bundle.
Proof.
  intros Hcase Hdf.
  assert (E : aggregate df start_date end_date selected_categories
              = empty_bundle).
  { unfold aggregate. rewrite (df_filtered_empty df Hcase). reflexivity. }
  split; [exact E|].
  destruct (run_computes_aggregate start_date end_date selected_categories g Hdf)
    as (g' & Hrun & Hb & _).
  exists g'. split; [exact Hrun|]. now rewrite Hb, E.
Qed.

(** C6 on a ledger of four payments with the two dates swapped. *)
Lemma C6_witness :
  aggregate Examples.four_coffees Examples.last_day Examples.first_day
            Examples.all_categories = empty_bundle
  /\ exists g',
       Globals.run Examples.last_day Examples.first_day Examples.all_categories
                   (Examples.loaded Examples.four_coffees) = Some g' /\
       Globals.bundle g' = Some empty_bundle.
Proof.
  apply (@C6_empty_filter_gives_empty_bundle Examples.four_coffees
           Examples.last_day Examples.first_day Examples.all_categories
           (Examples.loaded Examples.four_coffees)).
  - left. reflexivity.
  - reflexivity.
Defined.

(** ** Further properties of the summaries (lines 28-31, 85-86) *)

(** Every row of a frame belongs to exactly one group of the weekday
    summary, one of the hour summary and one of the monthly trend: the
    rows of the groups each of them lists are the rows of the frame,
    rearranged, so no summary leaves a payment out or takes it twice. *)
Theorem summaries_partition_the_frame (d : DataFrame) :
  Permutation
    (flat_map (fun entry => get_group DayOfWeek (fst entry) d) (day_summary d)) d
  /\ Permutation
       (flat_map (fun entry => get_group Hour (fst entry) d) (hour_summary d)) d
  /\ Permutation
       (flat_map
          (fun entry =>
             get_group Month (year (fst entry), month (fst entry)) d)
          (monthly_trend d))
       d.
Proof.
  split; [|split]; try apply summary_groups_partition.
  unfold monthly_trend, monthly_trend_by_period, groupby_sum.
  rewrite !flat_map_map_entries. cbn [fst snd to_timestamp year month].
  rewrite (flat_map_ext _ (fun k => get_group Month k d)).
  - apply (group_keys_partition Month d).
  - intros [y mo]. reflexivity.
Qed.

Lemma sorted_groupby_index_NoDup {K} {KO : KeyOrder K} {KL : KeyOrderLaws K}
  (key : Row -> K) (d : DataFrame) :
  NoDup (map fst (sort_values_desc (groupby_sum key Amount d))).
Proof.
  apply (Permutation_NoDup (l := map fst (groupby_sum key Amount d))).
  - apply Permutation_map. symmetry. apply sort_values_desc_Permutation.
  - rewrite groupby_sum_index. apply group_keys_NoDup.
Qed.

Lemma sorted_groupby_index_In {K} {KO : KeyOrder K} {KL : KeyOrderLaws K}
  (key : Row -> K) (d : DataFrame) (k : K) :
  In k (map fst (sort_values_desc (groupby_sum key Amount d)))
  <-> exists r, In r d /\ key r = k.
Proof.
  split.
  - intros Hin. apply in_map_iff in Hin. destruct Hin as ([k' v] & <- & Hin).
    apply sort_values_desc_In, groupby_sum_In in Hin. tauto.
  - intros (r & Hr & <-).
    apply in_map_iff.
    exists (key r, sum_skipna (map Amount (get_group key (key r) d))).
    split; [reflexivity|].
    apply sort_values_desc_In, groupby_sum_In. split; [eauto | reflexivity].
Qed.

(** The category, weekday and hour summaries are in non-increasing order
    of total and list exactly the keys that occur in the frame, each
    once. *)
Theorem ranked_summaries_descending_without_repeats (d : DataFrame) :
  (descending (category_summary d)
   /\ NoDup (map fst (category_summary d))
   /\ forall c, In c (map fst (category_summary d))
                <-> exists r, In r d /\ Category r = c)
  /\ (descending (day_summary d)
      /\ NoDup (map fst (day_summary d))
      /\ forall w, In w (map fst (day_summary d))
                   <-> exists r, In r d /\ DayOfWeek r = w)
  /\ (descending (hour_summary d)
      /\ NoDup (map fst (hour_summary d))
      /\ forall h, In h (map fst (hour_summary d))
                   <-> exists r, In r d /\ Hour r = h).
Proof.
  repeat split;
    try apply sort_values_desc_sorted;
    try apply sorted_groupby_index_NoDup;
    try (apply sorted_groupby_index_In; assumption);
    try (intros Hex; apply sorted_groupby_index_In; exact Hex).
Qed.

Lemma StronglySorted_app_inv {A} (P : A -> A -> Prop) (l1 l2 : list A) (x y : A) :
  StronglySorted P (l1 ++ l2) -> In x l1 -> In y l2 -> P x y.
Proof.
  induction l1 as [|a l1 IH]; simpl; intros Hs Hx Hy; [destruct Hx|].
  inversion Hs as [|? ? Hs' Ha]; subst.
  destruct Hx as [->|Hx]; [|now apply IH].
  rewrite Forall_forall in Ha. apply Ha, in_or_app. now right.
Qed.

(** No receiver left out of [top_merchants] has a larger total than one
    that is listed. *)
Theorem top_merchants_dominate_the_rest
  (d : DataFrame) (listed other : string * Q) :
  In listed (top_merchants d) ->
  In other (merchant_totals d) ->
  ~ In other (top_merchants d) ->
  (snd other <= snd listed)%Q.
Proof.
  unfold top_merchants, head. intros Hl Ho Hnot.
  rewrite <- (firstn_skipn 5 (merchant_totals d)) in Ho.
  apply in_app_or in Ho. destruct Ho as [Ho|Ho]; [contradiction|].
  assert (Hs : StronglySorted value_ge
                 (firstn 5 (merchant_totals d) ++ skipn 5 (merchant_totals d))).
  { rewrite firstn_skipn. apply sort_values_desc_sorted. }
  exact (@StronglySorted_app_inv _ value_ge _ _ listed other Hs Hl Ho).
Qed.

(** The receiver ranked sixth of [Examples.six_merchants] against a listed
    one. *)
Lemma top_merchants_dominate_the_rest_witness :
  (snd ("Outlet"%string, 0%Q) <= snd ("Water"%string, 50%Q))%Q.
Proof.
  apply (@top_merchants_dominate_the_rest
           (df_filtered Examples.six_merchants Examples.first_day
                        Examples.last_day Examples.all_categories)
           ("Water"%string, 50%Q) ("Outlet"%string, 0%Q)).
  - vm_compute. left. reflexivity.
  - vm_compute. do 5 right. left. reflexivity.
  - vm_compute. intros H.
    repeat (destruct H as [H|H]; [discriminate H|]). exact H.
Defined.

Lemma firstn_NoDup {A} (n : nat) (l : list A) : NoDup l -> NoDup (firstn n l).
Proof.
  intros Hnd. rewrite <- (firstn_skipn n l) in Hnd.
  exact (NoDup_app_remove_r _ _ Hnd).
Qed.

(** Every entry of [top_merchants] is a receiver of at least one row of
    the frame, with the sum of the known amounts paid to it; no receiver
    is listed twice. *)
Theorem top_merchants_entries_are_receiver_totals (d : DataFrame) :
  NoDup (map fst (top_merchants d))
  /\ forall receiver total,
       In (receiver, total) (top_merchants d) ->
       exists rows,
         Selects (fun r => Receiver r = receiver) d rows /\
         rows <> [] /\
         (total == Qsum (known (map Amount rows)))%Q.
Proof.
  split.
  - unfold top_merchants, head. rewrite <- firstn_map.
    apply firstn_NoDup, sorted_groupby_index_NoDup.
  - intros receiver total Hin.
    unfold top_merchants, head in Hin. apply firstn_In in Hin.
    apply sort_values_desc_In, groupby_sum_In in Hin.
    destruct Hin as ((r & Hr & Hk) & ->).
    exists (get_group Receiver receiver d). split; [|split].
    + apply filter_Selects. intros r'. apply keqb_eq.
    + intros E. assert (Hg : In r (get_group Receiver receiver d))
        by (apply get_group_In; auto).
      rewrite E in Hg. destruct Hg.
    + apply sum_skipna_known.
Qed.

(** A witness for the second part on [Examples.tied_merchants]. *)
Lemma top_merchants_entries_are_receiver_totals_witness :
  exists rows,
    Selects (fun r => Receiver r = "Grocer"%string)
            Examples.tied_merchants rows /\
    rows <> [] /\
    (100 == Qsum (known (map Amount rows)))%Q.
Proof.
  apply (proj2 (top_merchants_entries_are_receiver_totals
                  Examples.tied_merchants) "Grocer"%string 100%Q).
  vm_compute. right. left. reflexivity.
Defined.

(** ** Default widget values and the filter (lines 20-26) *)

Section MinMaxFacts.
Context {K : Type} {KO : KeyOrder K} {KL : KeyOrderLaws K}.

Lemma kleb_total (a b : K) : kleb a b = false -> kleb b a = true.
Proof.
  intros Hf. apply kleb_false_iff in Hf. unfold klt in Hf.
  unfold kleb. now rewrite Hf.
Qed.

Lemma kleb_trans (a b c : K) :
  kleb a b = true -> kleb b c = true -> kleb a c = true.
Proof.
  intros Hab Hbc. destruct (kleb a c) eqn:Hac; [reflexivity|].
  apply kleb_false_iff in Hac. unfold kleb in Hab, Hbc. unfold klt in Hac.
  destruct (kcmp a b) eqn:E1; [| |discriminate].
  - apply kcmp_eq in E1. subst. apply kcmp_gt_lt in Hac. now rewrite Hac in Hbc.
  - pose proof (kcmp_trans _ _ _ Hac E1) as Hcb.
    apply kcmp_gt_lt in Hcb. now rewrite Hcb in Hbc.
Qed.

Lemma series_min_None (l : list K) : series_min l = None <-> l = [].
Proof.
  destruct l as [|x t]; simpl; [tauto|].
  destruct (series_min t); split; discriminate.
Qed.

Lemma series_max_None (l : list K) : series_max l = None <-> l = [].
Proof.
  destruct l as [|x t]; simpl; [tauto|].
  destruct (series_max t); split; discriminate.
Qed.

Lemma series_min_spec (l : list K) (m : K) :
  series_min l = Some m -> In m l /\ forall x, In x l -> kleb m x = true.
Proof.
  revert m. induction l as [|y t IH]; simpl; intros m Hm; [discriminate|].
  destruct (series_min t) as [m'|] eqn:E.
  - destruct (IH m' eq_refl) as [Hin Hle].
    destruct (kleb y m') eqn:Hy; injection Hm as <-.
    + split; [now left|]. intros x [->|Hx]; [apply kleb_refl|].
      eapply kleb_trans; eauto.
    + split; [now right|]. intros x [->|Hx]; [now apply kleb_total | auto].
  - injection Hm as <-. apply series_min_None in E. subst t.
    split; [now left|]. intros x [->|[]]. apply kleb_refl.
Qed.

Lemma series_max_spec (l : list K) (m : K) :
  series_max l = Some m -> In m l /\ forall x, In x l -> kleb x m = true.
Proof.
  revert m. induction l as [|y t IH]; simpl; intros m Hm; [discriminate|].
  destruct (series_max t) as [m'|] eqn:E.
  - destruct (IH m' eq_refl) as [Hin Hle].
    destruct (kleb m' y) eqn:Hy; injection Hm as <-.
    + split; [now left|]. intros x [->|Hx]; [apply kleb_refl|].
      eapply kleb_trans; eauto.
    + split; [now right|]. intros x [->|Hx]; [now apply kleb_total | auto].
  - injection Hm as <-. apply series_max_None in E. subst t.
    split; [now left|]. intros x [->|[]]. apply kleb_refl.
Qed.

End MinMaxFacts.

Lemma filter_all {A} (f : A -> bool) (l : list A) :
  (forall x, In x l -> f x = true) -> filter f l = l.
Proof.
  induction l as [|a l IH]; simpl; intros Hall; [reflexivity|].
  rewrite (Hall a (or_introl eq_refl)). f_equal. apply IH. auto.
Qed.

Lemma filter_weaken {A} (f g : A -> bool) (l : list A) :
  (forall x, In x l -> g x = true -> f x = true) ->
  filter g (filter f l) = filter g l.
Proof.
  induction l as [|a l IH]; simpl; intros Himp; [reflexivity|].
  destruct (f a) eqn:Ef; simpl.
  - destruct (g a); rewrite IH; auto.
  - destruct (g a) eqn:Eg.
    + rewrite (Himp a (or_introl eq_refl) Eg) in Ef. discriminate.
    + apply IH. auto.
Qed.

(** The two date inputs have a default exactly when the ledger has a row;
    the defaults are dates of rows of the ledger, the start date no later
    than the end date. *)
Theorem default_dates_come_from_the_ledger (df : DataFrame) :
  (default_start_date df = None <-> df = [])
  /\ (default_end_date df = None <-> df = [])
  /\ forall s e,
       default_start_date df = Some s -> default_end_date df = Some e ->
       In s (map Date df) /\ In e (map Date df) /\ date_le s e.
Proof.
  unfold default_start_date, default_end_date. split; [|split].
  - rewrite series_min_None. destruct df; simpl; split; congruence.
  - rewrite series_max_None. destruct df; simpl; split; congruence.
  - intros s e Hs He.
    apply series_min_spec in Hs. apply series_max_spec in He.
    destruct Hs as [Hs Hmin], He as [He _].
    repeat split; auto. apply kleb_date_le. auto.
Qed.

(** The default dates of [Examples.shrinking_months]. *)
Lemma default_dates_come_from_the_ledger_witness :
  In (Examples.date 2023 12 9) (map Date Examples.shrinking_months)
  /\ In (Examples.date 2024 3 1) (map Date Examples.shrinking_months)
  /\ date_le (Examples.date 2023 12 9) (Examples.date 2024 3 1).
Proof.
  apply (proj2 (proj2 (default_dates_come_from_the_ledger
                         Examples.shrinking_months))).
  - reflexivity.
  - reflexivity.
Defined.

(** With the widgets left at their defaults (the earliest and the latest
    date of the ledger, every category offered selected) the filter keeps
    the whole ledger. *)
Theorem default_widgets_keep_every_row (df : DataFrame) (s e : Timestamp) :
  default_start_date df = Some s ->
  default_end_date df = Some e ->
  df_filtered df s e (categories (df_filtered_by_date s e df)) = df.
Proof.
  unfold default_start_date, default_end_date. intros Hs He.
  apply series_min_spec in Hs. apply series_max_spec in He.
  destruct Hs as [_ Hmin], He as [_ Hmax].
  assert (Hd : df_filtered_by_date s e df = df).
  { apply filter_all. intros r Hr. unfold date_mask.
    rewrite Hmin, Hmax; auto using in_map. }
  unfold df_filtered. rewrite Hd. apply filter_all.
  intros r Hr. unfold category_mask, categories.
  apply isin_In, unique_In, in_map, Hr.
Qed.

Lemma default_widgets_keep_every_row_witness :
  df_filtered Examples.shrinking_months (Examples.date 2023 12 9)
    (Examples.date 2024 3 1)
    (categories
       (df_filtered_by_date (Examples.date 2023 12 9) (Examples.date 2024 3 1)
          Examples.shrinking_months))
  = Examples.shrinking_months.
Proof.
  apply (@default_widgets_keep_every_row Examples.shrinking_months
           (Examples.date 2023 12 9) (Examples.date 2024 3 1)).
  - reflexivity.
  - reflexivity.
Defined.

(** The category selector offers each category of the rows in the date
    range once. *)
Theorem categories_offered_once (d : DataFrame) :
  NoDup (categories d)
  /\ forall c, In c (categories d) <-> exists r, In r d /\ Category r = c.
Proof.
  unfold categories. split; [apply unique_NoDup|].
  intros c. rewrite unique_In, in_map_iff.
  split; intros (r & H1 & H2); exists r; auto.
Qed.

(** Filtering twice, with any two settings, gives the same rows in either
    order, and filtering again with the same setting changes nothing. *)
Theorem filters_commute_and_are_idempotent
  (df : DataFrame) (s e s' e' : Timestamp) (sel sel' : list string) :
  df_filtered (df_filtered df s e sel) s' e' sel'
  = df_filtered (df_filtered df s' e' sel') s e sel
  /\ df_filtered (df_filtered df s e sel) s e sel = df_filtered df s e sel.
Proof.
  rewrite !df_filtered_filter, !filter_filter_andb. split.
  - apply filter_ext. intros r.
    destruct (date_mask s e r), (category_mask sel r),
      (date_mask s' e' r), (category_mask sel' r); reflexivity.
  - apply filter_ext. intros r.
    destruct (date_mask s e r), (category_mask sel r); reflexivity.
Qed.

(** Narrowing the date range and the selection of an already filtered
    frame gives what the narrow setting gives on the ledger. *)
Theorem narrowing_a_filtered_frame
  (df : DataFrame) (s e s' e' : Timestamp) (sel sel' : list string) :
  date_le s s' -> date_le e' e -> incl sel' sel ->
  df_filtered (df_filtered df s e sel) s' e' sel' = df_filtered df s' e' sel'.
Proof.
  intros Hs He Hsel. rewrite !df_filtered_filter.
  apply filter_weaken. intros r _ Hr.
  apply masks_retained in Hr. apply masks_retained.
  destruct Hr as (H1 & H2 & H3). repeat split.
  - eapply date_le_trans; eauto.
  - eapply date_le_trans; eauto.
  - auto.
Qed.

Lemma narrowing_a_filtered_frame_witness :
  df_filtered
    (df_filtered Examples.shrinking_months Examples.first_day
                 Examples.last_day Examples.all_categories)
    (Examples.date 2024 1 1) (Examples.date 2024 1 31) ["Food"%string]
  = df_filtered Examples.shrinking_months
      (Examples.date 2024 1 1) (Examples.date 2024 1 31) ["Food"%string].
Proof.
  apply (@narrowing_a_filtered_frame Examples.shrinking_months
           Examples.first_day Examples.last_day
           (Examples.date 2024 1 1) (Examples.date 2024 1 31)
           Examples.all_categories ["Food"%string]).
  - discriminate.
  - discriminate.
  - intros c [<-|[]]. left. reflexivity.
Defined.

(** ** Recurring small payments, further (lines 33-35) *)

Section SizeFacts.
Context {K : Type} {KO : KeyOrder K} {KL : KeyOrderLaws K} {R : Type}.
Variable key : R -> K.

Lemma Zsum_sizes_nil (ks : list K) :
  Zsum (map (fun k => (k, Z.of_nat (List.length (get_group key k [])))) ks) = 0.
Proof. induction ks as [|k ks IH]; simpl; [reflexivity | exact IH]. Qed.

Lemma Zsum_sizes_skip (ks : list K) (r : R) (rows : list R) :
  ~ In (key r) ks ->
  Zsum (map (fun k => (k, Z.of_nat (List.length (get_group key k (r :: rows))))) ks)
  = Zsum (map (fun k => (k, Z.of_nat (List.length (get_group key k rows)))) ks).
Proof.
  induction ks as [|k ks IH]; intros Hnot; [reflexivity|].
  cbn [map Zsum fold_right snd]. rewrite get_group_cons.
  destruct (keqb (key r) k) eqn:E.
  - apply keqb_eq in E. exfalso. apply Hnot. now left.
  - unfold Zsum in IH. rewrite IH; [reflexivity|].
    intros Hin. apply Hnot. now right.
Qed.

Lemma Zsum_sizes_cons (ks : list K) (r : R) (rows : list R) :
  NoDup ks -> In (key r) ks ->
  Zsum (map (fun k => (k, Z.of_nat (List.length (get_group key k (r :: rows))))) ks)
  = 1 + Zsum (map (fun k => (k, Z.of_nat (List.length (get_group key k rows)))) ks).
Proof.
  induction 1 as [|k ks Hnot Hnd IH]; intros Hin; [destruct Hin|].
  cbn [map Zsum fold_right snd]. rewrite get_group_cons.
  destruct (keqb (key r) k) eqn:E.
  - apply keqb_eq in E. subst k.
    pose proof (@Zsum_sizes_skip ks r rows Hnot) as Hs. unfold Zsum in Hs.
    rewrite Hs. cbn [List.length]. lia.
  - apply keqb_neq in E. destruct Hin as [->|Hin]; [congruence|].
    specialize (IH Hin). unfold Zsum in IH. rewrite IH. lia.
Qed.

(** The sizes of the groups add up to the number of rows. *)
Lemma groupby_size_total (rows : list R) :
  Zsum (groupby_size key rows) = Z.of_nat (List.length rows).
Proof.
  unfold groupby_size.
  assert (Hgen : forall ks, NoDup ks -> (forall r, In r rows -> In (key r) ks) ->
    Zsum (map (fun k => (k, Z.of_nat (List.length (get_group key k rows)))) ks)
    = Z.of_nat (List.length rows)).
  { intros ks Hnd. induction rows as [|r rows' IH]; intros Hall.
    - apply Zsum_sizes_nil.
    - rewrite Zsum_sizes_cons; [|assumption|apply Hall; now left].
      rewrite IH; [cbn [List.length]; lia|].
      intros r' Hr'. apply Hall. now right. }
  apply Hgen.
  - apply group_keys_NoDup.
  - intros r Hr. apply group_keys_In, in_map, Hr.
Qed.

Lemma groupby_size_positive (rows : list R) (k : K) (c : Z) :
  In (k, c) (groupby_size key rows) -> 0 < c.
Proof.
  intros Hin. apply groupby_size_In in Hin.
  destruct Hin as ((r & Hr & Hk) & ->).
  assert (Hg : In r (get_group key k rows)) by (apply get_group_In; auto).
  destruct (get_group key k rows); [destruct Hg | simpl; lia].
Qed.

End SizeFacts.

Lemma Zsum_filter_le {K} (f : K * Z -> bool) (s : list (K * Z)) :
  (forall kc, In kc s -> 0 <= snd kc) -> Zsum (filter f s) <= Zsum s.
Proof.
  induction s as [|kc s IH]; simpl; intros Hpos; [lia|].
  assert (H0 : 0 <= snd kc) by (apply Hpos; now left).
  assert (IH' : Zsum (filter f s) <= Zsum s) by (apply IH; auto).
  destruct (f kc); simpl; unfold Zsum in *; lia.
Qed.

(** Every small payment is counted in exactly one (receiver, month) group
    of [recurring]; the flagged groups therefore never count more payments
    than there are small ones, and they are listed in ascending order of
    (receiver, month), no group twice. *)
Theorem recurring_counts_partition_small_payments (d : DataFrame) :
  Zsum (recurring (small_transactions d))
  = Z.of_nat (List.length (small_transactions d))
  /\ Zsum (wasteful_small (recurring (small_transactions d)))
     <= Z.of_nat (List.length (small_transactions d))
  /\ StronglySorted klt
       (map fst (wasteful_small (recurring (small_transactions d)))).
Proof.
  assert (Htot : Zsum (recurring (small_transactions d))
                 = Z.of_nat (List.length (small_transactions d))).
  { apply groupby_size_total. }
  split; [exact Htot|]. split.
  - rewrite <- Htot. apply Zsum_filter_le.
    intros [k c] Hin. apply groupby_size_positive in Hin. simpl. lia.
  - unfold wasteful_small, recurring.
    set (s := groupby_size (fun r => (Receiver r, Month r)) (small_transactions d)).
    assert (Hs : StronglySorted klt (map fst s)).
    { unfold s. rewrite groupby_size_index. apply group_keys_sorted. }
    clearbody s. induction s as [|kc s IH]; simpl; [constructor|].
    inversion Hs as [|? ? Hs' Ha]; subst.
    destruct (3 <? snd kc); simpl; [|now apply IH].
    constructor; [now apply IH|].
    rewrite Forall_forall in *. intros x Hx.
    apply in_map_iff in Hx. destruct Hx as (kc' & <- & Hkc').
    apply filter_In in Hkc'. apply Ha, in_map, Hkc'.
Qed.

(** A flagged (receiver, month) group refers to a receiver that has a
    total among the per-receiver totals and to a month that has an entry
    in the monthly trend. *)
Theorem flagged_groups_appear_in_other_summaries
  (d : DataFrame) (receiver : string) (m : Period) (c : Z) :
  In ((receiver, m), c) (wasteful_small (recurring (small_transactions d))) ->
  (exists total, In (receiver, total) (merchant_totals d))
  /\ In (to_timestamp m) (map fst (monthly_trend d)).
Proof.
  intros Hin. apply wasteful_small_In in Hin. destruct Hin as (Hgt & Hc).
  destruct (get_group (fun r => (Receiver r, Month r)) (receiver, m)
                      (small_transactions d)) as [|r t] eqn:E.
  { simpl in Hc. lia. }
  assert (Hr : In r (r :: t)) by now left.
  rewrite <- E in Hr. apply get_group_In in Hr.
  destruct Hr as (Hsmall & [= Hrec Hm]).
  unfold small_transactions in Hsmall. apply filter_In in Hsmall.
  destruct Hsmall as (Hd & _). split.
  - exists (sum_skipna (map Amount (get_group Receiver receiver d))).
    apply sort_values_desc_In, groupby_sum_In. split; [|reflexivity].
    exists r. auto.
  - rewrite monthly_trend_index. apply in_map, group_keys_In.
    rewrite <- Hm. apply in_map, Hd.
Qed.

Lemma flagged_groups_appear_in_other_summaries_witness :
  (exists total, In ("Coffee Shop"%string, total)
                    (merchant_totals Examples.four_coffees))
  /\ In (to_timestamp (2024, 1)) (map fst (monthly_trend Examples.four_coffees)).
Proof.
  apply (@flagged_groups_appear_in_other_summaries Examples.four_coffees
           "Coffee Shop"%string (2024, 1) 4).
  vm_compute. left. reflexivity.
Defined.

(** ** Weekdays, hours and months (lines 12-14, 29-30, 85-86) *)

Lemma day_name_is_a_weekday (t : Timestamp) : In (day_name t) weekday_names.
Proof.
  unfold day_name, weekday_names.
  destruct ((days_from_civil t + 3) mod 7) as [|p|p];
    [| destruct p as [[[p|p|]|[p|p|]|]|[[p|p|]|[p|p|]|]|] |]; simpl; auto 10.
Qed.

Lemma summary_length_bound {K} {KO : KeyOrder K} {KL : KeyOrderLaws K}
  (key : Row -> K) (d : DataFrame) (names : list K) :
  (forall r, In r d -> In (key r) names) ->
  (List.length (sort_values_desc (groupby_sum key Amount d))
   <= List.length names)%nat.
Proof.
  intros Hin. rewrite sort_values_desc_length, <- (length_map fst).
  rewrite groupby_sum_index. apply NoDup_incl_length.
  - apply group_keys_NoDup.
  - intros k Hk. apply group_keys_In, in_map_iff in Hk.
    destruct Hk as (r & <- & Hr). auto.
Qed.

(** The weekday summary has at most seven entries, each under the English
    name of a weekday. *)
Theorem day_summary_has_at_most_seven_weekdays (d : DataFrame) :
  (List.length (day_summary d) <= 7)%nat
  /\ forall name total,
       In (name, total) (day_summary d) -> In name weekday_names.
Proof.
  split.
  - apply (summary_length_bound DayOfWeek d weekday_names).
    intros r _. apply day_name_is_a_weekday.
  - intros name total Hin.
    apply sort_values_desc_In, groupby_sum_In in Hin.
    destruct Hin as ((r & _ & <-) & _). apply day_name_is_a_weekday.
Qed.

Lemma day_summary_has_at_most_seven_weekdays_witness :
  In "Thursday"%string weekday_names.
Proof.
  apply (proj2 (day_summary_has_at_most_seven_weekdays Examples.mixed_status)
           "Thursday"%string 0%Q).
  vm_compute. right. right. left. reflexivity.
Defined.

(** When every time of day has an hour from 0 to 23, the hour summary has
    at most 24 entries. *)
Theorem hour_summary_has_at_most_24_hours (d : DataFrame) :
  (forall r, In r d -> 0 <= Hour r < 24) ->
  (List.length (hour_summary d) <= 24)%nat.
Proof.
  intros Hvalid.
  apply (summary_length_bound Hour d (map Z.of_nat (seq 0 24))).
  intros r Hr. specialize (Hvalid r Hr).
  apply in_map_iff. exists (Z.to_nat (Hour r)). split; [lia|].
  apply in_seq. lia.
Qed.

Lemma hour_summary_has_at_most_24_hours_witness :
  (List.length (hour_summary Examples.mixed_status) <= 24)%nat.
Proof.
  apply (@hour_summary_has_at_most_24_hours Examples.mixed_status).
  intros r Hr. simpl in Hr.
  destruct Hr as [<-|[<-|[<-|[]]]]; vm_compute; split; congruence.
Defined.

(** Every entry of the monthly trend is dated the first day of a month in
    which the frame has a row, with the sum of the known amounts of that
    month; and the month of every row has an entry. *)
Theorem monthly_trend_entries_are_month_totals (d : DataFrame) :
  (forall r, In r d -> In (to_timestamp (Month r)) (map fst (monthly_trend d)))
  /\ forall t total,
       In (t, total) (monthly_trend d) ->
       day t = 1 /\
       exists rows,
         Selects (fun r => Month r = (year t, month t)) d rows /\
         rows <> [] /\
         (total == Qsum (known (map Amount rows)))%Q.
Proof.
  split.
  - intros r Hr. rewrite monthly_trend_index.
    apply in_map, group_keys_In, in_map, Hr.
  - intros t total Hin. unfold monthly_trend in Hin.
    apply in_map_iff in Hin. destruct Hin as ([p v] & [= <- <-] & Hin).
    unfold monthly_trend_by_period in Hin. apply groupby_sum_In in Hin.
    destruct Hin as ((r & Hr & Hk) & ->). split; [reflexivity|].
    destruct p as [y mo]. cbn [to_timestamp year month fst snd].
    exists (get_group (fun r => to_period_M (Date r)) (y, mo) d).
    split; [|split].
    + apply filter_Selects. intros r'. apply keqb_eq.
    + intros E.
      assert (Hg : In r (get_group (fun r => to_period_M (Date r)) (y, mo) d))
        by (apply get_group_In; auto).
      rewrite E in Hg. destruct Hg.
    + apply sum_skipna_known.
Qed.

Lemma monthly_trend_entries_are_month_totals_witness :
  day (Examples.date 2024 1 1) = 1 /\
  exists rows,
    Selects (fun r => Month r = (2024, 1)) Examples.shrinking_months rows /\
    rows <> [] /\
    (200 == Qsum (known (map Amount rows)))%Q.
Proof.
  apply (proj2 (monthly_trend_entries_are_month_totals
                  Examples.shrinking_months) (Examples.date 2024 1 1) 200%Q).
  vm_compute. right. left. reflexivity.
Defined.

(** ** Advice text and views (lines 54, 92-108, 133-158) *)

(** The advice shown is the text of the response when there is a response
    and its text is not empty, and the fixed fallback when there is no
    response or its text is empty; it is never empty, so the advice panel
    never shows an empty text. *)
Theorem advice_text_is_never_empty (response : option Response) :
  (forall r, response = Some r -> text r <> ""%string ->
             advice_text response = text r)
  /\ (response = None \/ (exists r, response = Some r /\ text r = ""%string) ->
      advice_text response = "No advice generated."%string)
  /\ advice_text response <> ""%string
  /\ forall body,
       In (Views.info body) (Views.display_ai_advice (advice_text response)) ->
       body <> ""%string.
Proof.
  assert (Hne : advice_text response <> ""%string).
  { unfold advice_text. destruct response as [r|]; [|discriminate].
    destruct (String.eqb_spec (text r) ""); [discriminate | assumption]. }
  split; [|split; [|split]].
  - intros r -> Ht. unfold advice_text.
    destruct (String.eqb_spec (text r) ""); [contradiction | reflexivity].
  - intros [->|(r & -> & Ht)]; [reflexivity|].
    unfold advice_text. now rewrite Ht.
  - exact Hne.
  - intros body [H|[H|[]]]; [discriminate H|]. now injection H as <-.
Qed.

(** A response with a text: the text is shown as it is. *)
Lemma advice_text_is_never_empty_witness :
  advice_text (Some {| text := "Spend less on coffee." |})
  = "Spend less on coffee."%string.
Proof.
  apply (proj1 (advice_text_is_never_empty
                  (Some {| text := "Spend less on coffee." |}))
           {| text := "Spend less on coffee." |}).
  - reflexivity.
  - discriminate.
Defined.

Lemma filter_nil_iff {A} (f : A -> bool) (l : list A) :
  filter f l = [] <-> forall x, In x l -> f x = false.
Proof.
  induction l as [|a l IH]; simpl; [tauto|].
  destruct (f a) eqn:E; split.
  - discriminate.
  - intros Hall. specialize (Hall a (or_introl eq_refl)). congruence.
  - intros Hnil x [<-|Hx]; [assumption | now apply IH].
  - intros Hall. apply IH. auto.
Qed.

Lemma empty_true_iff {A} (s : list A) : empty s = true <-> s = [].
Proof. destruct s; simpl; split; congruence. Qed.

(** The wasteful-transactions view shows the all-clear for small payments
    exactly when no (receiver, month) group has more than 3 small payments,
    and the all-clear for statuses exactly when no row is pending or
    failed; otherwise it shows the flagged groups, respectively the table
    of the pending and failed rows. *)
Theorem wasteful_view_shows_all_clear_iff_nothing_detected (d : DataFrame) :
  (In (Views.success "No repetitive small transactions ✅")
      (Views.display_wasteful_transactions
         (wasteful_small (recurring (small_transactions d)))
         (wasteful_status d))
   <-> forall k c, In (k, c) (recurring (small_transactions d)) -> c <= 3)
  /\ (In (Views.success "No pending or failed transactions ✅")
         (Views.display_wasteful_transactions
            (wasteful_small (recurring (small_transactions d)))
            (wasteful_status d))
      <-> forall r, In r d ->
            Status r <> "PENDING"%string /\ Status r <> "FAILED"%string)
  /\ (In (Views.write_counts (wasteful_small (recurring (small_transactions d))))
         (Views.display_wasteful_transactions
            (wasteful_small (recurring (small_transactions d)))
            (wasteful_status d))
      <-> wasteful_small (recurring (small_transactions d)) <> [])
  /\ (In (Views.dataframe (wasteful_status_table (wasteful_status d)))
         (Views.display_wasteful_transactions
            (wasteful_small (recurring (small_transactions d)))
            (wasteful_status d))
      <-> wasteful_status d <> []).
Proof.
  assert (Hsmall : wasteful_small (recurring (small_transactions d)) = [] <->
                   forall k c, In (k, c) (recurring (small_transactions d)) -> c <= 3).
  { unfold wasteful_small. rewrite filter_nil_iff. split.
    - intros Hall k c Hin. specialize (Hall _ Hin). simpl in Hall.
      apply Z.ltb_ge in Hall. exact Hall.
    - intros Hall [k c] Hin. simpl. apply Z.ltb_ge. eauto. }
  assert (Hstatus : wasteful_status d = [] <->
                    forall r, In r d ->
                      Status r <> "PENDING"%string /\ Status r <> "FAILED"%string).
  { pose proof (filter_nil_iff status_mask d) as Hf.
    unfold wasteful_status. split.
    - intros Hnil r Hr. pose proof (proj1 Hf Hnil r Hr) as Hm.
      split; intros E; assert (Ht : status_mask r = true)
        by (apply status_mask_iff; auto); congruence.
    - intros Hall. apply (proj2 Hf). intros r Hr.
      destruct (status_mask r) eqn:E; [|reflexivity].
      apply status_mask_iff in E. destruct (Hall r Hr). tauto. }
  rewrite <- Hsmall, <- Hstatus.
  unfold Views.display_wasteful_transactions.
  destruct (wasteful_small (recurring (small_transactions d))) as [|kc ws];
    destruct (wasteful_status d) as [|r rs]; simpl;
    repeat split; intros H;
    repeat match goal with
           | H : _ \/ _ |- _ => destruct H as [H|H]
           | H : False |- _ => destruct H
           end;
    try discriminate; try congruence; auto 10.
Qed.

(** The chain of comparisons opens a view exactly for the entries of the
    menu, a different view for each entry, and every view has an entry:
    [dispatch] and [label] are inverse to each other. *)
Theorem every_menu_entry_opens_its_own_view :
  Views.menu = map label all_views
  /\ NoDup Views.menu
  /\ (forall v, Views.dispatch (label v) = Some v)
  /\ (forall s v, Views.dispatch s = Some v -> s = label v)
  /\ (forall s, Views.dispatch s = None <-> ~ In s Views.menu).
Proof.
  assert (Hinv : forall s v, Views.dispatch s = Some v -> s = label v).
  { intros s v. unfold Views.dispatch.
    repeat match goal with
           | |- context [String.eqb s ?n] =>
               destruct (String.eqb_spec s n) as [->|_]
           end; intros [= <-]; reflexivity. }
  split; [reflexivity|]. split.
  - repeat constructor; simpl; intros H;
      repeat (destruct H as [H|H]; [discriminate H|]); exact H.
  - split; [intros []; reflexivity|]. split; [exact Hinv|].
    intros s. split.
    + intros Hnone Hin. simpl in Hin.
      repeat (destruct Hin as [<-|Hin]; [discriminate Hnone|]). exact Hin.
    + intros Hnot. destruct (Views.dispatch s) as [v|] eqn:E; [|reflexivity].
      exfalso. apply Hnot. apply Hinv in E. subst s.
      destruct v; simpl; auto 10.
Qed.

(** The table under the heading "Top 5 Merchants" has at most five lines,
    in non-increasing order of total. *)
Theorem top_merchants_view_shows_at_most_five (d : DataFrame) :
  forall shown,
    In (Views.table shown) (Views.display_top_merchants (top_merchants d)) ->
    (List.length shown <= 5)%nat /\ descending shown.
Proof.
  intros shown [H|[H|[]]]; [discriminate H|]. injection H as <-. split.
  - rewrite top_merchants_length. apply Nat.le_min_l.
  - apply top_merchants_descending.
Qed.

Lemma top_merchants_view_shows_at_most_five_witness :
  (List.length (top_merchants Examples.six_merchants) <= 5)%nat
  /\ descending (top_merchants Examples.six_merchants).
Proof.
  apply (@top_merchants_view_shows_at_most_five Examples.six_merchants
           (top_merchants Examples.six_merchants)).
  right. left. reflexivity.
Defined.
